(** * The sentiment-triggered outreach pipeline and the voice backend stubs

    A shallow embedding of [analyze_and_support.py], [fetch_x_trends.py] and
    of the [voice_support_backend] managers, with the properties their
    specification states.

    Conventions of the embedding.
    - A Python [str] is the [string] of the bytes of its UTF-8 encoding.
      Substring tests, [split] and [replace] on ASCII separators read the
      same on the bytes as on the characters.  Where the code counts or cuts
      characters ([len], [s[:200]]) the model counts the bytes that start a
      character, and [strip] removes the encodings of the characters for which
      [str.isspace] holds.  [str.lower] belongs to the Python library: where
      two arbitrary texts are compared it is a parameter ([str_lower]); where
      the lowered text is only searched for fixed English words, [Str.lower]
      maps [A-Z] to [a-z] and leaves every other byte alone.
    - Python [int] is [Z].
    - A value decoded from JSON (or a [dict] built by the program) is a [json];
      a [dict] is an association list in insertion order.
    - A call of [requests.get]/[requests.post] followed by [raise_for_status]
      and [.json()] is an [http]: either the decoded body or the
      [RequestException] that one of the three raised.
    - A Python call that can leave through an exception is a [result].
    - [print] is not modelled, except where evaluating its argument can raise. *)

From Stdlib Require Import String Ascii List ZArith Lia Bool.
From stdpp Require Import gmap strings pretty.
Import ListNotations.
Open Scope string_scope.

(** ** Python strings *)

Module Str.

(** [sub in s]. *)
Fixpoint contains (sub s : string) : bool :=
  String.prefix sub s ||
  match s with
  | EmptyString => false
  | String _ s' => contains sub s'
  end.

Fixpoint drop (n : nat) (s : string) : string :=
  match n, s with
  | O, _ => s
  | S _, EmptyString => EmptyString
  | S n', String _ s' => drop n' s'
  end.

(** The first [n] bytes of [s]. *)
Fixpoint take (n : nat) (s : string) : string :=
  match n, s with
  | O, _ => EmptyString
  | S _, EmptyString => EmptyString
  | S n', String c s' => String c (take n' s')
  end.

(** [s[:-1]]. *)
Fixpoint init (s : string) : string :=
  match s with
  | EmptyString => EmptyString
  | String c s' =>
      match s' with
      | EmptyString => EmptyString
      | String _ _ => String c (init s')
      end
  end.

(** [s.partition(sep)], without the separator itself: the text before the
    leftmost occurrence of [sep] and the text after it, if there is one. *)
Fixpoint partition (sep s : string) : string * option string :=
  if String.prefix sep s then (EmptyString, Some (drop (String.length sep) s))
  else match s with
       | EmptyString => (EmptyString, None)
       | String c s' =>
           let '(h, t) := partition sep s' in (String c h, t)
       end.

(** [s.split(sep)] for a non-empty [sep]: cut at the leftmost occurrence,
    then go on behind it.  Every cut consumes a character, so [length s]
    rounds are enough. *)
Fixpoint split_fuel (fuel : nat) (sep s : string) : list string :=
  match partition sep s with
  | (h, None) => [h]
  | (h, Some r) =>
      match fuel with
      | O => [h; r]
      | S f => h :: split_fuel f sep r
      end
  end.

Definition split (sep s : string) : list string :=
  split_fuel (String.length s) sep s.

(** The UTF-8 encoding of a code point below 0x10000. *)
Definition encode (cp : N) : string :=
  if (cp <? 128)%N then String (ascii_of_N cp) EmptyString
  else if (cp <? 2048)%N then
    String (ascii_of_N (192 + cp / 64))
      (String (ascii_of_N (128 + cp mod 64)) EmptyString)
  else
    String (ascii_of_N (224 + cp / 4096))
      (String (ascii_of_N (128 + (cp / 64) mod 64))
         (String (ascii_of_N (128 + cp mod 64)) EmptyString)).

Fixpoint encode_all (cps : list N) : string :=
  match cps with
  | [] => EmptyString
  | cp :: rest => encode cp ++ encode_all rest
  end.

(** The characters for which [str.isspace] holds, the ones [strip] removes:
    TAB, LF, VT, FF, CR, the separators FS, GS, RS, US, the space, NEL, the
    no-break space, the Ogham space mark, EN QUAD to HAIR SPACE, the line and
    the paragraph separator, the narrow no-break space, the medium
    mathematical space and the ideographic space. *)
Definition whitespace_code_points : list N :=
  [ 9; 10; 11; 12; 13; 28; 29; 30; 31; 32; 133; 160; 5760;
    8192; 8193; 8194; 8195; 8196; 8197; 8198; 8199; 8200; 8201; 8202;
    8232; 8233; 8239; 8287; 12288 ]%N.

Definition whitespace : list string := map encode whitespace_code_points.

(** [w] is one white-space character. *)
Definition is_space (w : string) : bool := existsb (String.eqb w) whitespace.

(** [s.lstrip()]: a character takes one, two or three bytes. *)
Fixpoint lstrip (s : string) : string :=
  match s with
  | EmptyString => EmptyString
  | String a s1 =>
      if is_space (String a EmptyString) then lstrip s1
      else
        match s1 with
        | EmptyString => s
        | String b s2 =>
            if is_space (String a (String b EmptyString)) then lstrip s2
            else
              match s2 with
              | EmptyString => s
              | String c s3 =>
                  if is_space (String a (String b (String c EmptyString)))
                  then lstrip s3 else s
              end
        end
  end.

Definition is_empty (s : string) : bool :=
  match s with EmptyString => true | _ => false end.

(** [s.rstrip()]: what is left of [s] when its longest tail of white space
    is removed. *)
Fixpoint rstrip (s : string) : string :=
  match s with
  | EmptyString => EmptyString
  | String c s' =>
      if is_empty (lstrip s) then EmptyString else String c (rstrip s')
  end.

(** [s.strip()]. *)
Definition strip (s : string) : string := rstrip (lstrip s).

(** A byte that continues a character: [10xxxxxx]. *)
Definition is_continuation (c : ascii) : bool :=
  let n := nat_of_ascii c in (128 <=? n)%nat && (n <=? 191)%nat.

(** [len(s)]: the bytes that start a character. *)
Fixpoint len (s : string) : nat :=
  match s with
  | EmptyString => 0
  | String c s' => if is_continuation c then len s' else S (len s')
  end.

(** [s[:n]] for a non-negative [n]: the first [n] characters. *)
Fixpoint take_chars (n : nat) (s : string) : string :=
  match s with
  | EmptyString => EmptyString
  | String c s' =>
      if is_continuation c then String c (take_chars n s')
      else match n with
           | O => EmptyString
           | S n' => String c (take_chars n' s')
           end
  end.

(** [s] begins at the start of a character (or is empty). *)
Definition at_boundary (s : string) : bool :=
  match s with
  | EmptyString => true
  | String c _ => negb (is_continuation c)
  end.

Definition lower_char (c : ascii) : ascii :=
  let n := nat_of_ascii c in
  if (65 <=? n)%nat && (n <=? 90)%nat then ascii_of_nat (n + 32) else c.

(** [s.lower()]. *)
Fixpoint lower (s : string) : string :=
  match s with
  | EmptyString => EmptyString
  | String c s' => String (lower_char c) (lower s')
  end.

(** [s] consists of white-space characters only (true of the empty
    string). *)
Definition only_whitespace (s : string) : Prop :=
  exists cps,
    Forall (fun cp => In cp whitespace_code_points) cps
    /\ s = encode_all cps.

(** [sep.join(parts)]. *)
Fixpoint join (sep : string) (parts : list string) : string :=
  match parts with
  | [] => EmptyString
  | [p] => p
  | p :: rest => p ++ sep ++ join sep rest
  end.

End Str.

(** ** JSON values and Python dictionaries *)

#[warning="-register-all"]
Inductive json : Type :=
| JNull
| JBool (b : bool)
| JNum (n : Z)
| JStr (s : string)
| JArr (items : list json)
| JObj (fields : list (string * json)).

Definition dict : Type := list (string * json).

Module Py.

(** [d.get(k)], as an option. *)
Fixpoint lookup (k : string) (d : dict) : option json :=
  match d with
  | [] => None
  | (k', v) :: d' => if String.eqb k k' then Some v else lookup k d'
  end.

(** [d.get(k)]: [None] when the key is absent. *)
Definition get (d : dict) (k : string) : json :=
  match lookup k d with Some v => v | None => JNull end.

(** [d.get(k, dflt)]. *)
Definition get_default (d : dict) (k : string) (dflt : json) : json :=
  match lookup k d with Some v => v | None => dflt end.

(** [d[k] = v]: an existing key keeps its place. *)
Fixpoint set (k : string) (v : json) (d : dict) : dict :=
  match d with
  | [] => [(k, v)]
  | (k', v') :: d' =>
      if String.eqb k k' then (k, v) :: d' else (k', v') :: set k v d'
  end.

(** [bool(v)]. *)
Definition truthy (v : json) : bool :=
  match v with
  | JNull => false
  | JBool b => b
  | JNum n => negb (n =? 0)%Z
  | JStr s => negb (Str.is_empty s)
  | JArr l => match l with [] => false | _ => true end
  | JObj d => match d with [] => false | _ => true end
  end.

(** The items [v] yields when iterated, each required to be a [str]:
    what [sep.join(v)] consumes.  A [str] yields its characters, a [dict]
    its keys; [None], a [bool] and a number are not iterable. *)
Fixpoint strings_of_items (l : list json) : option (list string) :=
  match l with
  | [] => Some []
  | JStr s :: l' =>
      match strings_of_items l' with
      | Some r => Some (s :: r)
      | None => None
      end
  | _ :: _ => None
  end.

Fixpoint chars (s : string) : list string :=
  match s with
  | EmptyString => []
  | String c s' => String c EmptyString :: chars s'
  end.

Definition iter_strings (v : json) : option (list string) :=
  match v with
  | JArr l => strings_of_items l
  | JStr s => Some (chars s)
  | JObj d => Some (map fst d)
  | JNull | JBool _ | JNum _ => None
  end.

(** [str(x)] of an optional string inside an f-string. *)
Definition str_opt (o : option string) : string :=
  match o with Some s => s | None => "None" end.

(** [l[:n]] for any integer [n]: a negative [n] counts from the end. *)
Definition slice_to {A : Type} (n : Z) (l : list A) : list A :=
  if (0 <=? n)%Z then firstn (Z.to_nat n) l
  else firstn (length l - Z.to_nat (- n)) l.

End Py.

(** ** A decoder for JSON text

    [json.loads] belongs to the Python library.  The pipeline is defined over
    an arbitrary decoder; [Json.loads] below decodes the fragment of JSON
    without fractions, exponents and unicode escapes, and serves to run the
    pipeline on concrete responses. *)

Module Json.

Definition dquote : ascii := ascii_of_nat 34.
Definition backslash : ascii := ascii_of_nat 92.

Definition is_ws (c : ascii) : bool :=
  let n := nat_of_ascii c in
  (n =? 32)%nat || (n =? 9)%nat || (n =? 10)%nat || (n =? 13)%nat.

Fixpoint skip_ws (s : string) : string :=
  match s with
  | EmptyString => EmptyString
  | String c s' => if is_ws c then skip_ws s' else s
  end.

Definition digit (c : ascii) : option Z :=
  let n := nat_of_ascii c in
  if (48 <=? n)%nat && (n <=? 57)%nat then Some (Z.of_nat (n - 48)) else None.

Fixpoint digits (acc : Z) (s : string) : Z * string :=
  match s with
  | EmptyString => (acc, s)
  | String c s' =>
      match digit c with
      | Some d => digits (acc * 10 + d) s'
      | None => (acc, s)
      end
  end.

(** A fraction or an exponent starts here: outside the fragment. *)
Definition starts_fraction (s : string) : bool :=
  match s with
  | String c _ => Ascii.eqb c "." || Ascii.eqb c "e" || Ascii.eqb c "E"
  | EmptyString => false
  end.

(** [0] or a non-zero digit followed by digits. *)
Definition natural (s : string) : option (Z * string) :=
  match s with
  | EmptyString => None
  | String c s' =>
      match digit c with
      | None => None
      | Some d =>
          let '(n, rest) := if (d =? 0)%Z then (0%Z, s') else digits d s' in
          if starts_fraction rest then None else Some (n, rest)
      end
  end.

Definition escape (c : ascii) : option ascii :=
  if Ascii.eqb c dquote then Some dquote
  else if Ascii.eqb c backslash then Some backslash
  else if Ascii.eqb c "/" then Some "/"%char
  else if Ascii.eqb c "b" then Some (ascii_of_nat 8)
  else if Ascii.eqb c "f" then Some (ascii_of_nat 12)
  else if Ascii.eqb c "n" then Some (ascii_of_nat 10)
  else if Ascii.eqb c "r" then Some (ascii_of_nat 13)
  else if Ascii.eqb c "t" then Some (ascii_of_nat 9)
  else None.

(** The characters of a string literal, behind its opening quote. *)
Fixpoint literal (s : string) : option (string * string) :=
  match s with
  | EmptyString => None
  | String c s' =>
      if Ascii.eqb c dquote then Some (EmptyString, s')
      else if Ascii.eqb c backslash then
        match s' with
        | EmptyString => None
        | String e s'' =>
            match escape e, literal s'' with
            | Some c', Some (body, rest) => Some (String c' body, rest)
            | _, _ => None
            end
        end
      else if (nat_of_ascii c <? 32)%nat then None
      else match literal s' with
           | Some (body, rest) => Some (String c body, rest)
           | None => None
           end
  end.

Definition keyword (kw : string) (v : json) (s : string)
  : option (json * string) :=
  if String.prefix kw s then Some (v, Str.drop (String.length kw) s) else None.

(** A repeated key keeps its first place and its last value. *)
Definition dedup (d : dict) : dict :=
  fold_left (fun acc kv => Py.set (fst kv) (snd kv) acc) d [].

Fixpoint value (fuel : nat) (s : string) : option (json * string) :=
  match fuel with
  | O => None
  | S f =>
      match s with
      | EmptyString => None
      | String c s' =>
          if Ascii.eqb c "{" then
            match skip_ws s' with
            | String "}" rest => Some (JObj [], rest)
            | s1 =>
                match members f s1 with
                | Some (d, rest) => Some (JObj (dedup d), rest)
                | None => None
                end
            end
          else if Ascii.eqb c "[" then
            match skip_ws s' with
            | String "]" rest => Some (JArr [], rest)
            | s1 =>
                match elements f s1 with
                | Some (l, rest) => Some (JArr l, rest)
                | None => None
                end
            end
          else if Ascii.eqb c dquote then
            match literal s' with
            | Some (body, rest) => Some (JStr body, rest)
            | None => None
            end
          else if Ascii.eqb c "-" then
            match natural s' with
            | Some (n, rest) => Some (JNum (- n), rest)
            | None => None
            end
          else if Ascii.eqb c "t" then keyword "true" (JBool true) s
          else if Ascii.eqb c "f" then keyword "false" (JBool false) s
          else if Ascii.eqb c "n" then keyword "null" JNull s
          else match natural s with
               | Some (n, rest) => Some (JNum n, rest)
               | None => None
               end
      end
  end

with elements (fuel : nat) (s : string) : option (list json * string) :=
  match fuel with
  | O => None
  | S f =>
      match value f s with
      | None => None
      | Some (v, rest) =>
          match skip_ws rest with
          | String "]" rest' => Some ([v], rest')
          | String "," rest' =>
              match elements f (skip_ws rest') with
              | Some (l, rest'') => Some (v :: l, rest'')
              | None => None
              end
          | _ => None
          end
      end
  end

with members (fuel : nat) (s : string) : option (dict * string) :=
  match fuel with
  | O => None
  | S f =>
      match s with
      | String c s' =>
          if Ascii.eqb c dquote then
            match literal s' with
            | None => None
            | Some (k, rest) =>
                match skip_ws rest with
                | String ":" rest' =>
                    match value f (skip_ws rest') with
                    | None => None
                    | Some (v, rest'') =>
                        match skip_ws rest'' with
                        | String "}" r => Some ([(k, v)], r)
                        | String "," r =>
                            match members f (skip_ws r) with
                            | Some (d, r') => Some ((k, v) :: d, r')
                            | None => None
                            end
                        | _ => None
                        end
                    end
                | _ => None
                end
            end
          else None
      | EmptyString => None
      end
  end.

(** [json.loads(s)] on the fragment: [None] stands for [JSONDecodeError]. *)
Definition loads (s : string) : option json :=
  match value (2 * String.length s + 2) (skip_ws s) with
  | Some (v, rest) =>
      if Str.is_empty (skip_ws rest) then Some v else None
  | None => None
  end.

(** A quoted string literal of JSON text, for writing examples. *)
Definition q (s : string) : string :=
  String dquote s ++ String dquote EmptyString.

End Json.

(** ** Requests, exceptions and results *)

(** The exceptions of [requests.exceptions] the program handles:
    [raise_for_status] raises [HTTPError]; everything else that derives from
    [RequestException] (connection failure, timeout, undecodable body) is
    [TransportError]. *)
Inductive request_exception : Type :=
| HTTPError (status_code : Z)
| TransportError (reason : string).

(** What one guarded [requests] call delivers. *)
Inductive http (A : Type) : Type :=
| Response (body : A)
| Failure (e : request_exception).
Arguments Response {A} body.
Arguments Failure {A} e.

Inductive exn : Type :=
| RequestException (e : request_exception)
| IndexError
| AttributeError
| TypeError.

Inductive result (A : Type) : Type :=
| Return (a : A)
| Raise (e : exn).
Arguments Return {A} a.
Arguments Raise {A} e.

Definition bind {A B : Type} (r : result A) (k : A -> result B) : result B :=
  match r with
  | Return a => k a
  | Raise e => Raise e
  end.

Notation "x <- r ;; k" := (bind r (fun x => k))
  (at level 100, r at next level, right associativity).

(** [l[i]]. *)
Definition index {A : Type} (l : list A) (i : nat) : result A :=
  match nth_error l i with
  | Some x => Return x
  | None => Raise IndexError
  end.

Definition returns {A : Type} (r : result A) : bool :=
  match r with Return _ => true | Raise _ => false end.

(** ** analyze_and_support.py: GrokClient *)

Module GrokClient.

(** The reply to one chat-completion request: the [content] of its first
    choice. *)
Definition chat : Type := http string.

Definition describe (e : request_exception) : string :=
  match e with
  | HTTPError _ => "HTTP error"
  | TransportError reason => reason
  end.

Section Decoder.

(** [json.loads]; [None] is [json.JSONDecodeError]. *)
Variable json_loads : string -> option json.

(** Lines 91-94: the text between the first fence and the next one. *)
Definition salvage (content : string) : result string :=
  if Str.contains "```json" content then
    part <- index (Str.split "```json" content) 1 ;;
    body <- index (Str.split "```" part) 0 ;;
    Return (Str.strip body)
  else if Str.contains "```" content then
    part <- index (Str.split "```" content) 1 ;;
    body <- index (Str.split "```" part) 0 ;;
    Return (Str.strip body)
  else Return content.

(** Lines 100-107. *)
Definition fallback_verdict (content : string) : dict :=
  [ ("is_negative",
      JBool (Str.contains "negative" (Str.lower content)
             || Str.contains "true" (Str.lower content)));
    ("sentiment",
      JStr (if Str.contains "negative" (Str.lower content)
            then "negative" else "neutral"));
    ("severity", JStr "medium");
    ("concerns", JArr []);
    ("needs_support", JBool true);
    ("reasoning", JStr (Str.take_chars 200 content)) ].

(** Lines 111-118. *)
Definition api_error_verdict (e : request_exception) : dict :=
  [ ("is_negative", JBool false);
    ("sentiment", JStr "unknown");
    ("severity", JStr "low");
    ("concerns", JArr []);
    ("needs_support", JBool false);
    ("reasoning", JStr ("API error: " ++ describe e)) ].

(** Lines 89-107, on the content of a reply that arrived. *)
Definition parse_verdict (content : string) : result json :=
  content' <- salvage content ;;
  match json_loads content' with
  | Some analysis => Return analysis
  | None => Return (JObj (fallback_verdict content'))
  end.

Definition analyze_sentiment (reply : chat) : result json :=
  match reply with
  | Response content => parse_verdict content
  | Failure e => Return (JObj (api_error_verdict e))
  end.

End Decoder.

Fixpoint remove_char (c : ascii) (s : string) : string :=
  match s with
  | EmptyString => EmptyString
  | String c' s' =>
      if Ascii.eqb c c' then remove_char c s' else String c' (remove_char c s')
  end.

Definition default_message : string :=
  "Hey, I saw your post and wanted to reach out. If you need someone to talk to, I'm here. You're not alone, and things can get better. 💙".

Definition error_message (username : string) : string :=
  "Hey @" ++ username ++
  ", I saw your post and wanted to reach out. If you need someone to talk to, I'm here. You're not alone. 💙".

(** Line 132: [", ".join(concerns) if concerns else "general distress"]. *)
Definition concerns_str (concerns : json) : result string :=
  if Py.truthy concerns then
    match Py.iter_strings concerns with
    | Some parts => Return (Str.join ", " parts)
    | None => Raise TypeError
    end
  else Return "general distress".

Definition generate_support_message
    (username : string) (concerns : json) (reply : string -> chat)
  : result string :=
  cs <- concerns_str concerns ;;
  match reply cs with
  | Response content =>
      let message := Str.strip content in
      let message := Str.strip (remove_char Json.dquote message) in
      let message :=
        match message with
        | String "@" rest => rest
        | _ => message
        end in
      Return (if Str.is_empty message then default_message else message)
  | Failure e => Return (error_message username)
  end.

End GrokClient.

(** ** analyze_and_support.py: TwitterClient *)

(** A tweet of the search response, with the requested [tweet.fields]. *)
Record Tweet : Type := {
  t_id : option string;
  t_text : option string;
  t_author_id : option string;
  t_created_at : option string;
  t_public_metrics : option json
}.

(** A user object, with the requested [user.fields]. *)
Record User : Type := {
  u_id : string;
  u_username : option string;
  u_name : option string;
  u_description : option string;
  u_location : option string;
  u_url : option string
}.

(** The decoded body of the search endpoint. *)
Record SearchBody : Type := {
  b_errors : option (list string);
  b_includes_users : option (list User);
  b_data : option (list Tweet)
}.

Record SearchParams : Type := {
  query : string;
  max_results : Z;
  tweet_fields : string;
  user_fields : string;
  expansions : string
}.

Record Post : Type := {
  p_id : option string;
  p_text : string;
  p_author_id : option string;
  p_username : string;
  p_name : string;
  p_created_at : option string;
  p_metrics : json
}.

(** What [get_user_info] hands back: [None], the empty [dict] that stands in
    for a missing [data] field, or the user object. *)
Inductive user_info : Type :=
| NoInfo
| EmptyInfo
| Info (u : User).

Record ContactInfo : Type := {
  c_username : option string;
  c_name : option string;
  c_description : string;
  c_location : option string;
  c_url : option string;
  c_profile_url : option string
}.

Module TwitterClient.

Definition default_query : string := "lang:en -is:retweet".

(** Lines 214-229: the parameters of the search request. *)
Definition search_params (query : string) (max_results : Z) : SearchParams :=
  let query :=
    if Str.is_empty query || String.eqb (Str.strip query) EmptyString
    then default_query else query in
  let max_results := Z.max 10 (Z.min max_results 100) in
  {| query := query;
     max_results := max_results;
     tweet_fields := "created_at,author_id,public_metrics,text";
     user_fields := "username,name,description,public_metrics";
     expansions := "author_id" |}.

(** Line 253: a later user with the same id replaces an earlier one. *)
Definition users_by_id (users : list User) : gmap string User :=
  fold_left (fun m u => <[u_id u := u]> m) users ∅.

Definition post_of_tweet (users : gmap string User) (tweet : Tweet) : Post :=
  let user := match t_author_id tweet with
              | Some a => users !! a
              | None => None
              end in
  {| p_id := t_id tweet;
     p_text := default EmptyString (t_text tweet);
     p_author_id := t_author_id tweet;
     p_username := default "unknown" (user ≫= u_username);
     p_name := default "Unknown" (user ≫= u_name);
     p_created_at := t_created_at tweet;
     p_metrics := default (JObj []) (t_public_metrics tweet) |}.

Definition posts_of_body (body : SearchBody) : list Post :=
  match b_errors body with
  | Some _ => []
  | None =>
      let users := users_by_id (default [] (b_includes_users body)) in
      map (post_of_tweet users) (default [] (b_data body))
  end.

Definition search_posts
    (get : SearchParams -> http SearchBody) (query : string) (max_results : Z)
  : result (list Post) :=
  match get (search_params query max_results) with
  | Response body => Return (posts_of_body body)
  | Failure (HTTPError _) => Return []
  | Failure (TransportError _) => Return []
  end.

Definition get_user_info (get : option string -> http (option User))
    (user_id : option string) : result user_info :=
  match get user_id with
  | Response (Some u) => Return (Info u)
  | Response None => Return EmptyInfo
  | Failure _ => Return NoInfo
  end.

Definition nonempty (o : option string) : bool :=
  match o with
  | Some s => negb (Str.is_empty s)
  | None => false
  end.

(** [None] stands for the empty [dict]. *)
Definition find_contact_info (get : option string -> http (option User))
    (user_id : option string) : result (option ContactInfo) :=
  info <- get_user_info get user_id ;;
  match info with
  | NoInfo | EmptyInfo => Return None
  | Info u =>
      Return (Some
        {| c_username := u_username u;
           c_name := u_name u;
           c_description := default EmptyString (u_description u);
           c_location := u_location u;
           c_url := u_url u;
           c_profile_url :=
             if nonempty (u_username u)
             then Some ("https://twitter.com/" ++ Py.str_opt (u_username u))
             else None |})
  end.

End TwitterClient.

(** ** analyze_and_support.py: scan_and_analyze *)

Record ResultEntry : Type := {
  r_username : option string;
  r_user_id : option string;
  r_profile_url : option string;
  r_original_post : string;
  r_post_url : option string;
  r_sentiment_analysis : json;
  r_support_message : string;
  r_contact_info : option ContactInfo;
  r_timestamp : string
}.

Record Report : Type := {
  scan_timestamp : string;
  report_query : string;
  total_posts_scanned : nat;
  negative_posts_found : nat;
  results : list ResultEntry
}.

(** Everything a run reads from outside.  The loops number their rounds from
    1, and each round has replies of its own: the same post may be answered
    differently in two rounds. *)
Record World : Type := {
  search_api : SearchParams -> http SearchBody;
  sentiment_api : nat -> string -> string -> GrokClient.chat;
  users_api : nat -> option string -> http (option User);
  draft_api : nat -> string -> string -> string -> GrokClient.chat;
  now_file : string;
  now_entry : nat -> string;
  now_scan : string
}.

(** What a run leaves behind: the list it returns and the files it wrote. *)
Record Outcome : Type := {
  results_data : list ResultEntry;
  written : list (string * Report)
}.

Section Pipeline.

Variable json_loads : string -> option json.
Variable w : World.

(** Lines 419-422: the test on the two flags, and the [join] of the
    concerns that the accepting branch prints. *)
Definition accepts (analysis : json) : result bool :=
  match analysis with
  | JObj d =>
      if Py.truthy (Py.get d "is_negative") && Py.truthy (Py.get d "needs_support")
      then match Py.iter_strings (Py.get_default d "concerns" (JArr [])) with
           | Some _ => Return true
           | None => Raise TypeError
           end
      else Return false
  | _ => Raise AttributeError
  end.

(** Lines 414-417: the classifier's verdict in round [idx]. *)
Definition classify (idx : nat) (post : Post) : result json :=
  GrokClient.analyze_sentiment json_loads
    (sentiment_api w idx (p_text post) (p_username post)).

(** Lines 410-430. *)
Fixpoint analyze_loop (idx : nat) (posts : list Post)
    (negative_posts : list (Post * json)) : result (list (Post * json)) :=
  match posts with
  | [] => Return negative_posts
  | post :: rest =>
      analysis <- classify idx post ;;
      keep <- accepts analysis ;;
      analyze_loop (S idx) rest
        (if keep then negative_posts ++ [(post, analysis)] else negative_posts)
  end.

(** [analysis.get("concerns", [])], where [analysis] passed [accepts]. *)
Definition concerns_of (analysis : json) : result json :=
  match analysis with
  | JObj d => Return (Py.get_default d "concerns" (JArr []))
  | _ => Raise AttributeError
  end.

(** Lines 442-474: one round of the drafting loop. *)
Definition draft (idx : nat) (item : Post * json) : result ResultEntry :=
  let '(post, analysis) := item in
  contact_info <- TwitterClient.find_contact_info (users_api w idx)
                    (p_author_id post) ;;
  concerns <- concerns_of analysis ;;
  support_message <- GrokClient.generate_support_message (p_username post)
                       concerns
                       (draft_api w idx (p_text post) (p_username post)) ;;
  Return
    {| r_username := contact_info ≫= c_username;
       r_user_id := p_author_id post;
       r_profile_url := contact_info ≫= c_profile_url;
       r_original_post := p_text post;
       r_post_url :=
         if TwitterClient.nonempty (p_id post)
         then Some ("https://twitter.com/"
                    ++ Py.str_opt (contact_info ≫= c_username)
                    ++ "/status/" ++ Py.str_opt (p_id post))
         else None;
       r_sentiment_analysis := analysis;
       r_support_message := support_message;
       r_contact_info := contact_info;
       r_timestamp := now_entry w idx |}.

(** Lines 441-492. *)
Fixpoint draft_loop (idx : nat) (negative_posts : list (Post * json))
    (results_data : list ResultEntry) : result (list ResultEntry) :=
  match negative_posts with
  | [] => Return results_data
  | item :: rest =>
      result_entry <- draft idx item ;;
      draft_loop (S idx) rest (results_data ++ [result_entry])
  end.

Definition results_file : string :=
  "support_outreach_" ++ now_file w ++ ".json".

(** Lines 494-505. *)
Definition save (query : string) (posts : list Post)
    (negative_posts : list (Post * json)) (results_data : list ResultEntry)
  : list (string * Report) :=
  match results_data with
  | [] => []
  | _ :: _ =>
      [ (results_file,
         {| scan_timestamp := now_scan w;
            report_query := query;
            total_posts_scanned := length posts;
            negative_posts_found := length negative_posts;
            results := results_data |}) ]
  end.

Definition scan_and_analyze (query : string) (max_posts : Z) (dry_run : bool)
  : result Outcome :=
  posts <- TwitterClient.search_posts (search_api w) query max_posts ;;
  match posts with
  | [] => Return {| results_data := []; written := [] |}
  | _ :: _ =>
      negative_posts <- analyze_loop 1 posts [] ;;
      results_data <- draft_loop 1 negative_posts [] ;;
      Return {| results_data := results_data;
                written := save query posts negative_posts results_data |}
  end.

End Pipeline.

(** ** fetch_x_trends.py *)

Record TrendsParams : Type := {
  woeid_path : Z;
  bearer : string;
  max_trends : Z;
  trend_fields : option string
}.

(** Lines 40-71: both handlers log and end in a bare [raise]. *)
Definition fetch_trends_by_woeid
    (get : TrendsParams -> http json)
    (woeid : Z) (bearer_token : string) (max_trends : Z)
    (trend_fields : option (list string)) : result json :=
  let params :=
    {| woeid_path := woeid;
       bearer := bearer_token;
       max_trends := max_trends;
       trend_fields :=
         match trend_fields with
         | Some (f :: fs) => Some (Str.join "," (f :: fs))
         | Some [] | None => None
         end |} in
  match get params with
  | Response body => Return body
  | Failure (HTTPError status_code) => Raise (RequestException (HTTPError status_code))
  | Failure (TransportError reason) => Raise (RequestException (TransportError reason))
  end.

(** ** voice_support_backend/memory_manager.py *)

Record MemoryEntry : Type := {
  m_text : string;
  m_timestamp : string;
  m_metadata : dict
}.

(** The Mem0 client, when there is one: [None] is a call that raised. *)
Record Mem0 : Type := {
  mem0_search : string -> string -> Z -> option (list MemoryEntry)
}.

Record MemoryManager : Type := {
  mem0_available : bool;
  memory : option Mem0;
  mm_ready : bool
}.

(** The [*_memory.json] files under [conversation_storage], by user id. *)
Abbreviation storage := (gmap string (list MemoryEntry)).

Module Memory.

(** Lines 21-42: [client] is what [Memory(...)] produced, when the library
    could be imported and the constructor did not raise. *)
Definition init (imported : bool) (client : option Mem0) : MemoryManager :=
  if imported then
    match client with
    | Some m => {| mem0_available := true; memory := Some m; mm_ready := true |}
    | None => {| mem0_available := true; memory := None; mm_ready := false |}
    end
  else {| mem0_available := false; memory := None; mm_ready := false |}.

(** Line 50: [self.ready or True]. *)
Definition is_ready (self : MemoryManager) : bool :=
  if mm_ready self then mm_ready self else true.

(** Lines 131-143, then line 199. *)
Definition file_memories (disk : storage) (user_id : string) : list MemoryEntry :=
  default [] (disk !! user_id).

(** [str.lower], a function of the Python library. *)
Section Lower.

Variable str_lower : string -> string.

Definition matches (query_lower : string) (mem : MemoryEntry) : bool :=
  Str.contains query_lower (str_lower (m_text mem)).

(** Lines 196-208. *)
Definition _search_file_memories (disk : storage)
    (user_id query : string) (limit : Z) : list MemoryEntry :=
  let memories := file_memories disk user_id in
  let query_lower := str_lower query in
  let results := List.filter (matches query_lower) memories in
  Py.slice_to limit results.

(** Lines 99-113. *)
Definition search_memories (self : MemoryManager) (disk : storage)
    (user_id query : string) (limit : Z) : list MemoryEntry :=
  match (if mem0_available self then memory self else None) with
  | Some m =>
      match mem0_search m user_id query limit with
      | Some results => results
      | None => _search_file_memories disk user_id query limit
      end
  | None => _search_file_memories disk user_id query limit
  end.

End Lower.

End Memory.

(** ** voice_support_backend/rag_manager.py *)

Record RAGManager : Type := {
  lancedb_available : bool;
  rag_ready : bool
}.

Module RAG.

(** Lines 21-48: [connected] tells whether the set-up inside the [try]
    went through. *)
Definition init (imported connected : bool) : RAGManager :=
  {| lancedb_available := imported; rag_ready := imported && connected |}.

(** Line 55: [self.ready or True]. *)
Definition is_ready (self : RAGManager) : bool :=
  if rag_ready self then rag_ready self else true.

End RAG.

(** ** voice_support_backend/main.py: the health check *)

Record Health : Type := {
  status : string;
  timestamp : string;
  health_memory : bool;
  health_rag : bool
}.

Definition health_check (memory_manager : MemoryManager)
    (rag_manager : RAGManager) (utcnow : string) : Health :=
  {| status := "healthy";
     timestamp := utcnow;
     health_memory := Memory.is_ready memory_manager;
     health_rag := RAG.is_ready rag_manager |}.

(** ** Vocabulary of the statements *)

(** The two flags of a verdict, read the way [if a and b] reads them. *)
Definition both_flags (d : dict) : bool :=
  Py.truthy (Py.get d "is_negative") && Py.truthy (Py.get d "needs_support").

(** The concerns of a verdict can be joined: they are absent, or strings. *)
Definition joinable (d : dict) : bool :=
  match Py.iter_strings (Py.get_default d "concerns" (JArr [])) with
  | Some _ => true
  | None => false
  end.

(** A verdict the accepting branch can print. *)
Definition printable (pd : Post * dict) : Prop :=
  both_flags (snd pd) = true -> joinable (snd pd) = true.

(** [run] lists the fetched posts with the verdict each one received, the
    first of them in round [idx]. *)
Fixpoint answers (json_loads : string -> option json) (w : World)
    (idx : nat) (run : list (Post * dict)) : Prop :=
  match run with
  | [] => True
  | (post, d) :: rest =>
      classify json_loads w idx post = Return (JObj d)
      /\ answers json_loads w (S idx) rest
  end.

(** The rounds whose verdict carries both flags. *)
Definition accepted (run : list (Post * dict)) : list (Post * dict) :=
  List.filter (fun pd => both_flags (snd pd)) run.

(** An accepted round, as the filter stage stores it. *)
Definition kept (pd : Post * dict) : Post * json := (fst pd, JObj (snd pd)).

(** The record drafted for an accepted post. *)
Definition drafted_from (pd : Post * dict) (e : ResultEntry) : Prop :=
  r_original_post e = p_text (fst pd)
  /\ r_user_id e = p_author_id (fst pd)
  /\ r_sentiment_analysis e = JObj (snd pd).

(** The files a call of [scan_and_analyze] has written when it is left.  The
    report is written by the last statements of the function, behind both
    loops: a call left through an exception has written nothing. *)
Definition files_written (r : result Outcome) : list (string * Report) :=
  match r with
  | Return out => written out
  | Raise _ => []
  end.

(** ** Sample data *)

Module Sample.

Definition tweet (id text : string) : Tweet :=
  {| t_id := Some id; t_text := Some text; t_author_id := Some "42";
     t_created_at := None; t_public_metrics := None |}.

Definition author : User :=
  {| u_id := "42"; u_username := Some "sam"; u_name := Some "Sam";
     u_description := None; u_location := None; u_url := None |}.

Definition body (tweets : list Tweet) : SearchBody :=
  {| b_errors := None; b_includes_users := Some [author];
     b_data := Some tweets |}.

(** A fenced verdict with both flags set. *)
Definition alarm_text : string :=
  "{" ++ Json.q "is_negative" ++ ": true, " ++ Json.q "needs_support"
      ++ ": true, " ++ Json.q "concerns" ++ ": [" ++ Json.q "grief" ++ "]}".

Definition alarm : string :=
  "Here it is: " ++ "```json" ++ alarm_text ++ "```" ++ " hope this helps".

Definition alarm_verdict : dict :=
  [ ("is_negative", JBool true); ("needs_support", JBool true);
    ("concerns", JArr [JStr "grief"]) ].

Definition cheerful : string :=
  "{" ++ Json.q "is_negative" ++ ": false, " ++ Json.q "needs_support"
      ++ ": true}".

Definition cheerful_verdict : dict :=
  [ ("is_negative", JBool false); ("needs_support", JBool true) ].

Definition world (tweets : list Tweet) (reply : nat -> GrokClient.chat)
  : World :=
  {| search_api := fun _ => Response (body tweets);
     sentiment_api := fun idx _ _ => reply idx;
     users_api := fun _ _ => Response (Some author);
     draft_api := fun _ _ _ _ => Response "@sam thinking of you";
     now_file := "20260101_120000";
     now_entry := fun _ => "2026-01-01T12:00:01";
     now_scan := "2026-01-01T12:00:02" |}.

(** The same tweet fetched twice, and alarming both times. *)
Definition twice : World :=
  world [tweet "7" "so tired of it all"; tweet "7" "so tired of it all"]
        (fun _ => Response alarm).

(** Two tweets, the second one alarming. *)
Definition mixed : World :=
  world [tweet "8" "great day"; tweet "9" "so tired of it all"]
        (fun idx => if Nat.eqb idx 2 then Response alarm else Response cheerful).

(** One tweet, and a classifier that is down. *)
Definition quiet : World :=
  world [tweet "8" "great day"] (fun _ => Failure (HTTPError 503)).

(** A verdict with both flags set whose concerns are [null]. *)
Definition null_concerns : string :=
  "{" ++ Json.q "is_negative" ++ ": true, " ++ Json.q "needs_support"
      ++ ": true, " ++ Json.q "concerns" ++ ": null}".

Definition null_concerns_verdict : dict :=
  [ ("is_negative", JBool true); ("needs_support", JBool true);
    ("concerns", JNull) ].

(** Two alarming tweets: the first verdict is in order, the concerns of the
    second one are [null]. *)
Definition broken : World :=
  world [tweet "8" "so tired of it all"; tweet "9" "nobody would notice"]
        (fun idx => if Nat.eqb idx 1 then Response alarm
                    else Response null_concerns).

(** A JSON text with a fence inside a string, and the reply that fences
    it. *)
Definition fence_inside : string := "[" ++ Json.q "```" ++ "]".

Definition fenced_fence : string := "```json" ++ fence_inside ++ "```".

Definition post_of (id text : string) : Post :=
  TwitterClient.post_of_tweet (TwitterClient.users_by_id [author]) (tweet id text).

Definition entry (text : string) : MemoryEntry :=
  {| m_text := text; m_timestamp := "2026-01-01T12:00:00"; m_metadata := [] |}.

Definition disk : gmap string (list MemoryEntry) :=
  <["u1" := [entry "User said: I feel SAD today";
             entry "User said: work was fine";
             entry "User said: sadness again"]]> ∅.

Definition no_mem0 : MemoryManager := Memory.init false None.

End Sample.

(** ** voice_support_backend/memory_manager.py: the files behind the manager

    A memory file is written only by [_save_file_memory], which stores
    [count = len(memories)] with the list; the file is represented by that
    list, as in [storage].  A history file is its list of conversations. *)

Record MemoryData : Type := {
  md_memories : list MemoryEntry;
  md_count : nat
}.

Record Message : Type := {
  msg_role : string;
  msg_content : string;
  msg_timestamp : string
}.

Record Conversation : Type := {
  conv_started_at : string;
  conv_messages : list Message;
  conv_ended : bool
}.

(** [l[i:]] for any integer [i]: a negative [i] counts from the end. *)
Definition slice_from {A : Type} (i : Z) (l : list A) : list A :=
  if (0 <=? i)%Z then skipn (Z.to_nat i) l
  else skipn (length l - Z.to_nat (- i)) l.

(** The last element replaced by its image. *)
Fixpoint update_last {A : Type} (f : A -> A) (l : list A) : list A :=
  match l with
  | [] => []
  | [x] => [f x]
  | x :: l' => x :: update_last f l'
  end.

Module MemoryOps.

(** Lines 131-143. *)
Definition _get_file_memory (disk : gmap string (list MemoryEntry))
    (user_id : string) : MemoryData :=
  let memories := Memory.file_memories disk user_id in
  {| md_memories := memories; md_count := length memories |}.

(** Lines 145-162: [writable] tells whether the file could be written. *)
Definition _save_file_memory (writable : bool) (now : string)
    (disk : gmap string (list MemoryEntry)) (user_id memory_text : string)
    (metadata : option dict) : gmap string (list MemoryEntry) :=
  let memory_data := _get_file_memory disk user_id in
  let memory_entry :=
    {| m_text := memory_text; m_timestamp := now;
       m_metadata := default [] metadata |} in
  let memories := (md_memories memory_data ++ [memory_entry])%list in
  if writable then <[user_id := memories]> disk else disk.

(** Lines 67-81: [mem0_add] tells whether [self.memory.add] went through. *)
Definition add_memory (self : MemoryManager)
    (mem0_add : string -> string -> dict -> bool)
    (writable : bool) (now : string)
    (disk : gmap string (list MemoryEntry)) (user_id memory_text : string)
    (metadata : option dict) : gmap string (list MemoryEntry) :=
  match (if mem0_available self then memory self else None) with
  | Some _ =>
      if mem0_add user_id memory_text (default [] metadata) then disk
      else _save_file_memory writable now disk user_id memory_text metadata
  | None => _save_file_memory writable now disk user_id memory_text metadata
  end.


Definition new_conversation (timestamp : string) : Conversation :=
  {| conv_started_at := timestamp; conv_messages := []; conv_ended := false |}.

Definition append_message (m : Message) (c : Conversation) : Conversation :=
  {| conv_started_at := conv_started_at c;
     conv_messages := (conv_messages c ++ [m])%list;
     conv_ended := conv_ended c |}.

(** Lines 164-194. *)
Definition _save_message (writable : bool)
    (history : gmap string (list Conversation))
    (user_id role content timestamp : string)
  : gmap string (list Conversation) :=
  let conversations := default [] (history !! user_id) in
  let conversations :=
    match last conversations with
    | None => (conversations ++ [new_conversation timestamp])%list
    | Some current =>
        if conv_ended current
        then (conversations ++ [new_conversation timestamp])%list
        else conversations
    end in
  let conversations :=
    update_last
      (append_message {| msg_role := role; msg_content := content;
                         msg_timestamp := timestamp |})
      conversations in
  if writable then <[user_id := conversations]> history else history.


(** Lines 115-129. *)
Definition get_conversation_history
    (history : gmap string (list Conversation)) (user_id : string) (limit : Z)
  : list Conversation :=
  match history !! user_id with
  | None => []
  | Some conversations =>
      if (limit =? 0)%Z then conversations
      else slice_from (- limit) conversations
  end.

End MemoryOps.

(** ** voice_support_backend/rag_manager.py: the fallback context *)

Record Resource : Type := {
  res_text : string;
  res_category : string;
  res_metadata : dict;
  res_score : string
}.

Module RAGOps.

(** Lines 179-198; the scores are the literals of the source. *)
Definition fallback_resources : list Resource :=
  [ {| res_text := "It's okay to feel sad or anxious. These feelings are valid and temporary. Remember that you're not alone.";
       res_category := "emotional_support";
       res_metadata := [("type", JStr "general_support")];
       res_score := "0.9" |};
    {| res_text := "If you're feeling overwhelmed, try taking deep breaths. This can help calm your nervous system.";
       res_category := "coping_strategies";
       res_metadata := [("type", JStr "breathing_exercise")];
       res_score := "0.8" |};
    {| res_text := "Remember that difficult times don't last forever. You've gotten through tough situations before.";
       res_category := "encouragement";
       res_metadata := [("type", JStr "hope")];
       res_score := "0.7" |} ].

(** Lines 174-204. *)
Definition _get_fallback_context (query : string) (limit : Z) : list Resource :=
  let query_lower := Str.lower query in
  if existsb (fun word => Str.contains word query_lower)
       ["sad"; "depressed"; "anxious"; "worried"]
  then Py.slice_to limit fallback_resources
  else Py.slice_to limit fallback_resources.

(** Lines 148-172: [engine] is there when the table and the embeddings are;
    it answers [None] when the search raised or the embeddings cannot
    embed. *)
Definition get_relevant_context (self : RAGManager)
    (engine : option (string -> Z -> option (list Resource)))
    (user_id query : string) (limit : Z) : list Resource :=
  match (if lancedb_available self then engine else None) with
  | Some search =>
      match search query limit with
      | Some rows => rows
      | None => _get_fallback_context query limit
      end
  | None => _get_fallback_context query limit
  end.

End RAGOps.

(** ** response_tracker.py *)

(** A [dict] with string keys, in insertion order. *)
Module Assoc.

Fixpoint get {V : Type} (k : string) (d : list (string * V)) : option V :=
  match d with
  | [] => None
  | (k', v) :: d' => if String.eqb k k' then Some v else get k d'
  end.

(** [d[k] = v]: an existing key keeps its place. *)
Fixpoint set {V : Type} (k : string) (v : V) (d : list (string * V))
  : list (string * V) :=
  match d with
  | [] => [(k, v)]
  | (k', v') :: d' =>
      if String.eqb k k' then (k, v) :: d' else (k', v') :: set k v d'
  end.

End Assoc.

(** An entry of [offers_sent].  Time stamps are instants in microseconds:
    the text written by [isoformat] is read back by [fromisoformat]. *)
Record Offer : Type := {
  o_user_id : string;
  o_username : string;
  o_tweet_id : string;
  o_reply_id : string;
  o_timestamp : Z;
  o_status : string;
  o_response : option string;
  o_wants_to_talk : option bool;
  o_response_timestamp : option Z
}.

Record Call : Type := {
  call_user_id : string;
  call_username : string;
  call_conversation_id : json;
  call_phone_number : string;
  call_timestamp : Z;
  call_status : string
}.

Record TrackingData : Type := {
  offers_sent : list (string * Offer);
  calls_initiated : list (string * Call)
}.

Record CallRequest : Type := {
  cr_user_id : string;
  cr_username : string;
  cr_phone_number : string;
  cr_context : dict
}.

(** What the backend answered to [/api/calls/initiate]: a status with its
    decoded body, or nothing that could be used (the request or the decoding
    raised). *)
Inductive backend : Type :=
| Replied (status_code : Z) (body : json)
| Unreachable.

Module ResponseTracker.







Definition offer_key (user_id tweet_id : string) : string :=
  user_id ++ "_" ++ tweet_id.

(** Lines 50-61. *)
Definition record_offer_sent (td : TrackingData) (now : Z)
    (user_id username tweet_id reply_id : string) : TrackingData :=
  {| offers_sent :=
       Assoc.set (offer_key user_id tweet_id)
         {| o_user_id := user_id; o_username := username;
            o_tweet_id := tweet_id; o_reply_id := reply_id;
            o_timestamp := now; o_status := "pending";
            o_response := None; o_wants_to_talk := None;
            o_response_timestamp := None |}
         (offers_sent td);
     calls_initiated := calls_initiated td |}.

(** Seven days, in microseconds. *)
Definition week : Z := 7 * 86400 * 1000000.

(** Lines 188-197: [now i] is the clock when the [i]-th offer is looked at. *)
Fixpoint pending_from (now : nat -> Z) (i : nat)
    (offers : list (string * Offer)) : list Offer :=
  match offers with
  | [] => []
  | (_, offer) :: rest =>
      if String.eqb (o_status offer) "pending"
         && (now i - o_timestamp offer <? week)%Z
      then offer :: pending_from now (S i) rest
      else pending_from now (S i) rest
  end.

Definition get_pending_offers (td : TrackingData) (now : nat -> Z)
  : list Offer :=
  pending_from now 0 (offers_sent td).

(** Lines 199-207. *)
Definition mark_offer_responded (td : TrackingData) (now : Z)
    (user_id tweet_id response : string) (wants_to_talk : bool)
  : TrackingData :=
  match Assoc.get (offer_key user_id tweet_id) (offers_sent td) with
  | Some offer =>
      {| offers_sent :=
           Assoc.set (offer_key user_id tweet_id)
             {| o_user_id := o_user_id offer; o_username := o_username offer;
                o_tweet_id := o_tweet_id offer; o_reply_id := o_reply_id offer;
                o_timestamp := o_timestamp offer; o_status := "responded";
                o_response := Some response;
                o_wants_to_talk := Some wants_to_talk;
                o_response_timestamp := Some now |}
             (offers_sent td);
         calls_initiated := calls_initiated td |}
  | None => td
  end.

(** Lines 123-186.  [clock] is [int(time.time())], [now] the stamp of the
    record.  A body that is no [dict] has no [get], which raises before
    anything is recorded.  After the record is made, the first hundred
    characters of the initial message are printed: slicing raises unless the
    message is a string or a list, and the handler then returns [None]. *)
Definition initiate_call_for_user (td : TrackingData)
    (post : CallRequest -> backend) (clock now : Z)
    (user_id username : string) (phone_number : option string)
    (context : option dict) : option dict * TrackingData :=
  match phone_number with
  | None => (None, td)
  | Some phone =>
      if Str.is_empty phone then (None, td)
      else
        match post {| cr_user_id := user_id; cr_username := username;
                      cr_phone_number := phone;
                      cr_context := default [] context |} with
        | Replied status_code (JObj result) =>
            if (status_code =? 200)%Z then
              let call_key := user_id ++ "_" ++ pretty clock in
              let td' :=
                {| offers_sent := offers_sent td;
                   calls_initiated :=
                     Assoc.set call_key
                       {| call_user_id := user_id; call_username := username;
                          call_conversation_id :=
                            Py.get result "conversation_id";
                          call_phone_number := phone;
                          call_timestamp := now;
                          call_status := "initiated" |}
                       (calls_initiated td) |} in
              match Py.get_default result "initial_message" (JStr EmptyString) with
              | JStr _ | JArr _ => (Some result, td')
              | _ => (None, td')
              end
            else (None, td)
        | Replied _ _ => (None, td)
        | Unreachable => (None, td)
        end
  end.

End ResponseTracker.

(** ** More vocabulary and sample data *)

(** The messages of [msgs] saved one after the other, every write going
    through. *)
Definition save_all (history : gmap string (list Conversation))
    (user_id : string) (msgs : list Message)
  : gmap string (list Conversation) :=
  fold_left
    (fun h m =>
       MemoryOps._save_message true h user_id (msg_role m) (msg_content m)
         (msg_timestamp m))
    msgs history.

Module Fixture.

Definition hello : Message :=
  {| msg_role := "user"; msg_content := "hello"; msg_timestamp := "t1" |}.

Definition answer : Message :=
  {| msg_role := "assistant"; msg_content := "hi there"; msg_timestamp := "t2" |}.



Definition talks : gmap string (list Conversation) :=
  <["u1" := [ {| conv_started_at := "t0"; conv_messages := [hello];
                 conv_ended := true |};
              {| conv_started_at := "t1"; conv_messages := [answer];
                 conv_ended := true |};
              {| conv_started_at := "t2"; conv_messages := [];
                 conv_ended := false |} ]]> ∅.

Definition no_lancedb : RAGManager := RAG.init false false.

Definition empty_tracking : TrackingData :=
  {| offers_sent := []; calls_initiated := [] |}.

Definition backend_ok : CallRequest -> backend :=
  fun _ => Replied 200
             (JObj [("conversation_id", JStr "conv_42");
                    ("initial_message", JStr "Hi Sam")]).

End Fixture.

(** * Properties *)

(** ** Strings *)

Section StrFacts.

Local Open Scope nat_scope.

Lemma prefix_app sep r : String.prefix sep (sep ++ r) = true.
Proof.
  induction sep as [|a sep IH]; simpl.
  - now destruct r.
  - destruct (ascii_dec a a); [assumption | congruence].
Qed.

Lemma drop_app sep r : Str.drop (String.length sep) (sep ++ r) = r.
Proof. induction sep; simpl; auto. Qed.

Lemma prefix_take sep : forall y,
  String.prefix sep y = String.prefix sep (Str.take (String.length sep) y).
Proof.
  induction sep as [|a sep IH]; intros [|b y]; simpl; auto.
  destruct (ascii_dec a b); auto.
Qed.

Lemma take_app n : forall p a,
  Str.take n (p ++ a) = Str.take n p ++ Str.take (n - String.length p) a.
Proof.
  induction n as [|n IH]; intros [|c p] a; simpl; rewrite ?IH; auto.
Qed.

Lemma take_app_le k : forall s r,
  k <= String.length s -> Str.take k (s ++ r) = Str.take k s.
Proof.
  induction k as [|k IH]; intros [|c s] r H; simpl in *; auto; try lia.
  f_equal. apply IH. lia.
Qed.

Lemma take_init k : forall s,
  k < String.length s -> Str.take k (Str.init s) = Str.take k s.
Proof.
  induction k as [|k IH]; intros [|c s] H; simpl in *; auto; try lia.
  destruct s as [|d s]; simpl in *; [lia|].
  f_equal. apply (IH (String d s)). simpl. lia.
Qed.

(** A separator cannot tell [init sep] from [sep ++ rest] behind a non-empty
    text: it is too short to reach the difference. *)
Lemma prefix_behind sep c p rest :
  String.prefix sep (String c p ++ Str.init sep)
  = String.prefix sep (String c p ++ sep ++ rest).
Proof.
  rewrite (prefix_take sep (String c p ++ Str.init sep)).
  rewrite (prefix_take sep (String c p ++ sep ++ rest)).
  f_equal.
  rewrite (take_app _ (String c p) (Str.init sep)).
  rewrite (take_app _ (String c p) (sep ++ rest)).
  f_equal.
  destruct (Nat.eq_dec (String.length sep) 0) as [E|E].
  - destruct sep; simpl in *; [reflexivity | lia].
  - rewrite take_init by (simpl; lia).
    rewrite take_app_le by (simpl; lia). reflexivity.
Qed.


Lemma app_nil s : EmptyString ++ s = s.
Proof. reflexivity. Qed.

Lemma app_cons c p s : String c p ++ s = String c (p ++ s).
Proof. reflexivity. Qed.

Lemma partition_leftmost sep rest : forall pre,
  Str.contains sep (pre ++ Str.init sep) = false ->
  Str.partition sep (pre ++ sep ++ rest) = (pre, Some rest).
Proof.
  induction pre as [|c pre IH]; intros H.
  - rewrite app_nil. destruct sep as [|a sep].
    + simpl in H. discriminate.
    + rewrite app_cons. cbn [Str.partition]. rewrite <- app_cons.
      rewrite (prefix_app (String a sep) rest).
      now rewrite drop_app.
  - rewrite app_cons in H. cbn [Str.contains] in H.
    apply orb_false_elim in H as [H1 H2].
    rewrite <- app_cons in H1.
    rewrite (prefix_behind sep c pre rest) in H1.
    rewrite app_cons. cbn [Str.partition]. rewrite <- app_cons, H1.
    now rewrite (IH H2).
Qed.

Lemma partition_absent sep : forall s,
  Str.contains sep s = false -> Str.partition sep s = (s, None).
Proof.
  induction s as [|c s IH]; intros H; cbn [Str.contains] in H;
    apply orb_false_elim in H as [H1 H2]; cbn [Str.partition]; rewrite H1; auto.
  now rewrite (IH H2).
Qed.

Lemma partition_present sep : forall s,
  Str.contains sep s = true ->
  exists h r, Str.partition sep s = (h, Some r).
Proof.
  induction s as [|c s IH]; intros H; cbn [Str.contains] in H;
    cbn [Str.partition]; destruct (String.prefix sep _) eqn:E; eauto.
  - discriminate.
  - destruct (IH H) as (h & r & ->). eauto.
Qed.

Lemma contains_app sep rest : forall pre,
  Str.contains sep (pre ++ sep ++ rest) = true.
Proof.
  induction pre as [|c pre IH].
  - rewrite app_nil. destruct sep as [|a sep].
    + rewrite app_nil. destruct rest; reflexivity.
    + rewrite app_cons. cbn [Str.contains]. rewrite <- app_cons.
      now rewrite (prefix_app (String a sep) rest).
  - rewrite app_cons. cbn [Str.contains]. rewrite IH. apply orb_true_r.
Qed.

End StrFacts.

Section SplitFacts.

Lemma split_fuel_head fuel sep s :
  exists tl, Str.split_fuel fuel sep s = fst (Str.partition sep s) :: tl.
Proof.
  destruct fuel; cbn [Str.split_fuel];
    destruct (Str.partition sep s) as [h [r|]]; simpl; eauto.
Qed.

Lemma partition_length sep : forall s h r,
  Str.partition sep s = (h, Some r) ->
  String.length s = (String.length h + String.length sep + String.length r)%nat.
Proof.
  assert (Hdrop : forall x s, String.prefix x s = true ->
            String.length s
            = (String.length x + String.length (Str.drop (String.length x) s))%nat).
  { induction x as [|a x IH]; intros [|c s] H; cbn in *;
      try reflexivity; try discriminate.
    destruct (ascii_dec a c); [|discriminate]. now rewrite <- (IH s H). }
  induction s as [|c s IH]; intros h r H; cbn [Str.partition] in H;
    destruct (String.prefix sep _) eqn:E.
  - injection H as <- <-. now apply Hdrop.
  - discriminate.
  - injection H as <- <-. now apply Hdrop.
  - destruct (Str.partition sep s) as [h' [r'|]]; [|discriminate].
    injection H as <- <-. cbn [String.length]. now rewrite (IH h' r' eq_refl).
Qed.

(** The fuel of [split] is enough: more of it changes nothing. *)
Lemma split_fuel_enough sep :
  sep <> EmptyString ->
  forall fuel s,
    (String.length s <= fuel)%nat ->
    Str.split_fuel fuel sep s = Str.split sep s.
Proof.
  intros Hsep.
  assert (Hlen : (0 < String.length sep)%nat)
    by (destruct sep; [congruence | cbn; lia]).
  assert (H : forall f1 s f2,
             (String.length s <= f1)%nat -> (String.length s <= f2)%nat ->
             Str.split_fuel f1 sep s = Str.split_fuel f2 sep s).
  { induction f1 as [|f1 IH]; intros s [|f2] H1 H2; cbn [Str.split_fuel];
      destruct (Str.partition sep s) as [h [r|]] eqn:E;
      try reflexivity;
      pose proof (partition_length sep s h r E); try lia.
    f_equal. apply IH; lia. }
  intros fuel s Hf. unfold Str.split. apply H; lia.
Qed.

Lemma split_index0 sep s :
  index (Str.split sep s) 0 = Return (fst (Str.partition sep s)).
Proof.
  unfold Str.split.
  destruct (split_fuel_head (String.length s) sep s) as [tl ->].
  reflexivity.
Qed.

Lemma split_index1 sep s h r :
  sep <> EmptyString ->
  Str.partition sep s = (h, Some r) ->
  index (Str.split sep s) 1 = Return (fst (Str.partition sep r)).
Proof.
  intros Hsep Hp. unfold Str.split. destruct s as [|c s].
  - destruct sep as [|a sep]; [congruence | discriminate Hp].
  - cbn [String.length Str.split_fuel]. rewrite Hp.
    destruct (split_fuel_head (String.length s) sep r) as [tl ->].
    reflexivity.
Qed.

Lemma prefix_app_l a b : forall s,
  String.prefix (a ++ b) s = true -> String.prefix a s = true.
Proof.
  induction a as [|c a IH]; intros s H.
  - now destruct s.
  - rewrite app_cons in H. destruct s as [|d s]; simpl in *; [discriminate|].
    destruct (ascii_dec c d); [auto | discriminate].
Qed.

Lemma contains_app_l a b : forall s,
  Str.contains (a ++ b) s = true -> Str.contains a s = true.
Proof.
  induction s as [|c s IH]; cbn [Str.contains]; intros H;
    apply orb_true_iff in H as [H|H]; apply orb_true_iff;
    eauto using prefix_app_l; discriminate.
Qed.

Lemma prefix_app_r x t : forall s,
  String.prefix x s = true -> String.prefix x (s ++ t) = true.
Proof.
  induction x as [|a x IH]; intros [|c s] H; simpl in *;
    try discriminate; try reflexivity.
  - now destruct t.
  - destruct (ascii_dec a c); [auto | discriminate].
Qed.

Lemma contains_app_r_false x t : forall s,
  Str.contains x (s ++ t) = false -> Str.contains x s = false.
Proof.
  induction s as [|c s IH]; intros H.
  - rewrite app_nil in H. cbn [Str.contains]. rewrite orb_false_r.
    destruct (String.prefix x EmptyString) eqn:E; [|reflexivity].
    apply (prefix_app_r x t) in E. rewrite app_nil in E.
    destruct t; cbn [Str.contains] in H; rewrite E in H; discriminate.
  - rewrite app_cons in H. cbn [Str.contains] in *.
    apply orb_false_elim in H as [H1 H2]. rewrite (IH H2), orb_false_r.
    destruct (String.prefix x (String c s)) eqn:E; [|reflexivity].
    apply (prefix_app_r x t) in E. rewrite app_cons in E. congruence.
Qed.

(** The piece in front of the cut is a prefix of the text. *)
Lemma partition_fst_split x : forall s,
  exists t, s = fst (Str.partition x s) ++ t.
Proof.
  induction s as [|c s [t IH]]; cbn [Str.partition];
    destruct (String.prefix x _); simpl fst.
  - now exists EmptyString.
  - now exists EmptyString.
  - exists (String c s). now rewrite app_nil.
  - destruct (Str.partition x s) as [h o]. simpl in *.
    exists t. rewrite app_cons. now rewrite <- IH.
Qed.

Lemma prefix_cons_inv a x c s :
  String.prefix (String a x) (String c s) = true ->
  a = c /\ String.prefix x s = true.
Proof.
  cbn [String.prefix]. destruct (ascii_dec a c); [auto | discriminate].
Qed.

Lemma partition_hit x s :
  String.prefix x s = true -> fst (Str.partition x s) = EmptyString.
Proof. intros H. destruct s; cbn [Str.partition]; now rewrite H. Qed.

Lemma partition_cons_miss x c s :
  String.prefix x (String c s) = false ->
  fst (Str.partition x (String c s)) = String c (fst (Str.partition x s)).
Proof.
  intros H. cbn [Str.partition]. rewrite H.
  now destruct (Str.partition x s).
Qed.

End SplitFacts.

(** ** GrokClient: what [salvage] hands to the decoder *)

Section Salvage.

Import GrokClient.

Lemma salvage_json content :
  Str.contains "```json" content = true ->
  exists h r, Str.partition "```json" content = (h, Some r) /\
    salvage content
    = Return (Str.strip (fst (Str.partition "```"
                                (fst (Str.partition "```json" r))))).
Proof.
  intros H. destruct (partition_present _ _ H) as (h & r & Hp).
  exists h, r. split; [assumption|]. unfold salvage. rewrite H.
  rewrite (split_index1 _ _ h r) by (assumption || discriminate).
  cbn [bind]. rewrite split_index0. reflexivity.
Qed.

Lemma salvage_plain content :
  Str.contains "```json" content = false ->
  Str.contains "```" content = true ->
  exists h r, Str.partition "```" content = (h, Some r) /\
    salvage content
    = Return (Str.strip (fst (Str.partition "```"
                                (fst (Str.partition "```" r))))).
Proof.
  intros H0 H. destruct (partition_present _ _ H) as (h & r & Hp).
  exists h, r. split; [assumption|]. unfold salvage. rewrite H0, H.
  rewrite (split_index1 _ _ h r) by (assumption || discriminate).
  cbn [bind]. rewrite split_index0. reflexivity.
Qed.

Lemma salvage_unfenced content :
  Str.contains "```" content = false -> salvage content = Return content.
Proof.
  intros H. unfold salvage. rewrite H.
  destruct (Str.contains "```json" content) eqn:E; [|reflexivity].
  apply (contains_app_l "```" "json") in E. congruence.
Qed.

(** The two indexings of [salvage] never leave the list. *)
Lemma salvage_returns content : exists text, salvage content = Return text.
Proof.
  destruct (Str.contains "```json" content) eqn:E1.
  - destruct (salvage_json content E1) as (h & r & _ & ->). eauto.
  - destruct (Str.contains "```" content) eqn:E2.
    + destruct (salvage_plain content E1 E2) as (h & r & _ & ->). eauto.
    + rewrite (salvage_unfenced content E2). eauto.
Qed.

(** Behind the opening fence, the text up to the next opening fence and,
    inside it, the text up to the next fence: this is [body] when the
    closing fence is the first one behind [body] and its backticks do not
    open a further [```json] fence. *)
Lemma json_piece body post :
  Str.contains "```" (body ++ "``") = false ->
  String.prefix "`json" post = false ->
  String.prefix "``json" post = false ->
  fst (Str.partition "```"
         (fst (Str.partition "```json" (body ++ "```" ++ post)))) = body.
Proof.
  intros Hbody Hp1 Hp2. induction body as [|c body IH].
  - rewrite app_nil.
    change ("```" ++ post) with (String "`" (String "`" (String "`" post))).
    destruct (String.prefix "```json" (String "`" (String "`" (String "`" post))))
      eqn:E0.
    + now rewrite (partition_hit _ _ E0).
    + assert (E1 : String.prefix "```json" (String "`" (String "`" post)) = false).
      { destruct (String.prefix "```json" (String "`" (String "`" post))) eqn:E;
          [|reflexivity].
        apply prefix_cons_inv in E as [_ E]. apply prefix_cons_inv in E as [_ E].
        congruence. }
      assert (E2 : String.prefix "```json" (String "`" post) = false).
      { destruct (String.prefix "```json" (String "`" post)) eqn:E; [|reflexivity].
        apply prefix_cons_inv in E as [_ E]. congruence. }
      rewrite (partition_cons_miss _ _ _ E0), (partition_cons_miss _ _ _ E1),
        (partition_cons_miss _ _ _ E2).
      apply partition_hit.
      exact (prefix_app "```" (fst (Str.partition "```json" post))).
  - rewrite app_cons in Hbody. cbn [Str.contains] in Hbody.
    apply orb_false_elim in Hbody as [H1 H2]. rewrite <- app_cons in H1.
    pose proof (prefix_behind "```" c body post) as Hb.
    change (Str.init "```") with "``" in Hb. rewrite Hb in H1. clear Hb.
    assert (H3 : String.prefix "```json" (String c body ++ "```" ++ post) = false).
    { destruct (String.prefix "```json" (String c body ++ "```" ++ post)) eqn:E;
        [|reflexivity].
      apply (prefix_app_l "```" "json") in E. congruence. }
    rewrite app_cons in H3 |- *. rewrite (partition_cons_miss _ _ _ H3).
    destruct (partition_fst_split "```json" (body ++ "```" ++ post)) as [t Ht].
    rewrite partition_cons_miss, (IH H2); [reflexivity|].
    destruct (String.prefix "```"
                (String c (fst (Str.partition "```json" (body ++ "```" ++ post)))))
      eqn:E; [|reflexivity].
    apply (prefix_app_r _ t) in E. rewrite app_cons, <- Ht, <- app_cons in E.
    congruence.
Qed.

Lemma salvage_json_block pre body post :
  Str.contains "```json" (pre ++ "```jso") = false ->
  Str.contains "```" (body ++ "``") = false ->
  String.prefix "`json" post = false ->
  String.prefix "``json" post = false ->
  salvage (pre ++ "```json" ++ body ++ "```" ++ post) = Return (Str.strip body).
Proof.
  intros Hpre Hbody Hp1 Hp2.
  destruct (salvage_json (pre ++ "```json" ++ body ++ "```" ++ post))
    as (h & r & Hp & ->); [apply contains_app|].
  rewrite (partition_leftmost "```json" _ pre Hpre) in Hp.
  injection Hp as <- <-.
  now rewrite (json_piece body post Hbody Hp1 Hp2).
Qed.

Lemma salvage_plain_block pre body post :
  Str.contains "```json" (pre ++ "```" ++ body ++ "```" ++ post) = false ->
  Str.contains "```" (pre ++ "``") = false ->
  Str.contains "```" (body ++ "``") = false ->
  salvage (pre ++ "```" ++ body ++ "```" ++ post) = Return (Str.strip body).
Proof.
  intros Hno Hpre Hbody.
  destruct (salvage_plain (pre ++ "```" ++ body ++ "```" ++ post))
    as (h & r & Hp & ->); [assumption | apply contains_app |].
  rewrite (partition_leftmost "```" _ pre Hpre) in Hp.
  injection Hp as <- <-.
  rewrite (partition_leftmost "```" post body Hbody). simpl fst.
  now rewrite (partition_absent "```" body (contains_app_r_false _ _ _ Hbody)).
Qed.

End Salvage.

Section StripFacts.

Lemma app_assoc_s (a b c : string) : (a ++ b) ++ c = a ++ b ++ c.
Proof. induction a as [|x a IH]; [reflexivity|]. now rewrite !app_cons, IH. Qed.

Lemma app_empty_r (a : string) : a ++ EmptyString = a.
Proof. induction a as [|x a IH]; [reflexivity|]. now rewrite app_cons, IH. Qed.

Lemma is_space_encode w :
  Str.is_space w = true
  <-> exists cp, In cp Str.whitespace_code_points /\ w = Str.encode cp.
Proof.
  unfold Str.is_space, Str.whitespace. rewrite existsb_exists. split.
  - intros (x & Hin & E). apply String.eqb_eq in E. subst x.
    apply in_map_iff in Hin as (cp & E & Hin). eauto.
  - intros (cp & Hin & ->). exists (Str.encode cp).
    split; [now apply in_map|apply String.eqb_refl].
Qed.

(** One step of [lstrip]: nothing is removed, or one white-space
    character is. *)
Lemma lstrip_cases s :
  Str.lstrip s = s
  \/ exists w r,
       s = w ++ r /\ Str.is_space w = true
       /\ (String.length r < String.length s)%nat
       /\ Str.lstrip s = Str.lstrip r.
Proof.
  destruct s as [|a s1]; [now left|]. cbn [Str.lstrip].
  destruct (Str.is_space (String a EmptyString)) eqn:E1.
  { right. exists (String a EmptyString), s1.
    rewrite app_cons, app_nil. cbn [String.length].
    refine (conj eq_refl (conj E1 (conj _ eq_refl))). lia. }
  destruct s1 as [|b s2]; [now left|].
  destruct (Str.is_space (String a (String b EmptyString))) eqn:E2.
  { right. exists (String a (String b EmptyString)), s2.
    rewrite !app_cons, app_nil. cbn [String.length].
    refine (conj eq_refl (conj E2 (conj _ eq_refl))). lia. }
  destruct s2 as [|c s3]; [now left|].
  destruct (Str.is_space (String a (String b (String c EmptyString)))) eqn:E3.
  { right. exists (String a (String b (String c EmptyString))), s3.
    rewrite !app_cons, app_nil. cbn [String.length].
    refine (conj eq_refl (conj E3 (conj _ eq_refl))). lia. }
  now left.
Qed.

(** A white-space character in front is removed. *)
Lemma lstrip_encode cp r :
  In cp Str.whitespace_code_points ->
  Str.lstrip (Str.encode cp ++ r) = Str.lstrip r.
Proof.
  unfold Str.whitespace_code_points. intros H.
  repeat (destruct H as [<-|H]; [vm_compute; reflexivity|]).
  destruct H.
Qed.

Lemma lstrip_part : forall s, exists a, s = a ++ Str.lstrip s.
Proof.
  intros s. remember (String.length s) as n eqn:Hn.
  revert s Hn. induction n as [n IH] using lt_wf_ind. intros s Hn.
  destruct (lstrip_cases s) as [E|(w & r & Hs & _ & Hl & E)].
  - exists EmptyString. now rewrite E, app_nil.
  - destruct (IH (String.length r) ltac:(lia) r eq_refl) as [a Ha].
    exists (w ++ a). rewrite E, Hs at 1. rewrite Ha at 1.
    now rewrite app_assoc_s.
Qed.

Lemma lstrip_idempotent : forall s, Str.lstrip (Str.lstrip s) = Str.lstrip s.
Proof.
  intros s. remember (String.length s) as n eqn:Hn.
  revert s Hn. induction n as [n IH] using lt_wf_ind. intros s Hn.
  destruct (lstrip_cases s) as [E|(w & r & Hs & _ & Hl & E)].
  - now rewrite !E.
  - rewrite E. apply (IH (String.length r)); [lia|reflexivity].
Qed.

Lemma lstrip_blank : forall s,
  Str.lstrip s = EmptyString <-> Str.only_whitespace s.
Proof.
  intros s. split.
  - remember (String.length s) as n eqn:Hn.
    revert s Hn. induction n as [n IH] using lt_wf_ind. intros s Hn H.
    destruct (lstrip_cases s) as [E|(w & r & Hs & Hw & Hl & E)].
    + exists []. split; [constructor|]. now rewrite <- E, H.
    + apply is_space_encode in Hw as (cp & Hin & ->).
      destruct (IH (String.length r) ltac:(lia) r eq_refl) as (cps & Hc & ->);
        [congruence|].
      exists (cp :: cps). split; [now constructor|exact Hs].
  - intros (cps & Hc & ->). induction Hc as [|cp cps Hcp _ IH]; [reflexivity|].
    cbn [Str.encode_all]. now rewrite lstrip_encode.
Qed.

Lemma rstrip_empty s : Str.rstrip s = EmptyString <-> Str.lstrip s = EmptyString.
Proof.
  destruct s as [|c s]; [tauto|]. cbn [Str.rstrip].
  destruct (Str.lstrip (String c s)) eqn:E; cbn [Str.is_empty].
  - tauto.
  - split; discriminate.
Qed.

Lemma rstrip_part : forall s, exists b, s = Str.rstrip s ++ b.
Proof.
  induction s as [|c s [b IH]]; [now exists EmptyString|].
  cbn [Str.rstrip]. destruct (Str.is_empty (Str.lstrip (String c s))).
  - exists (String c s). now rewrite app_nil.
  - exists b. now rewrite app_cons, <- IH.
Qed.

Lemma strip_part s : exists a b, s = a ++ Str.strip s ++ b.
Proof.
  destruct (lstrip_part s) as [a Ha].
  destruct (rstrip_part (Str.lstrip s)) as [b Hb].
  exists a, b. unfold Str.strip. now rewrite <- Hb.
Qed.

(** [s.strip() == ""] tells that [s] holds nothing but white space. *)
Lemma strip_empty s :
  Str.strip s = EmptyString <-> Str.only_whitespace s.
Proof.
  unfold Str.strip. now rewrite rstrip_empty, lstrip_idempotent, lstrip_blank.
Qed.

End StripFacts.

(** ** The request failures (C1) *)

(** C1, at the function that breaks it: when the trends request fails with
    status 404, [fetch_trends_by_woeid] hands the [HTTPError] on to its
    caller instead of returning a default. *)
Lemma fetch_trends_propagates_failure :
  fetch_trends_by_woeid (fun _ => Failure (HTTPError 404)) 1 "token" 20 None
  = Raise (RequestException (HTTPError 404))
  /\ returns (fetch_trends_by_woeid (fun _ => Failure (HTTPError 404))
                1 "token" 20 None) = false.
Proof. split; reflexivity. Qed.

(** C1, as amended: a request failure inside the post search, the sentiment
    classification, the user lookup (and the contact lookup and message
    drafting built on the same calls) is caught there, and the caller
    receives the empty list, the neutral verdict, [None] (the empty [dict]
    for the contact lookup) or the stock message; the trends fetch re-raises
    the failure to its caller. *)
Theorem request_failures_handled (json_loads : string -> option json)
    (e : request_exception) :
  (forall get q n,
      get (TwitterClient.search_params q n) = Failure e ->
      TwitterClient.search_posts get q n = Return [])
  /\ (exists verdict,
        GrokClient.analyze_sentiment json_loads (Failure e) = Return (JObj verdict)
        /\ Py.get verdict "is_negative" = JBool false
        /\ Py.get verdict "needs_support" = JBool false
        /\ Py.get verdict "sentiment" = JStr "unknown"
        /\ Py.get verdict "concerns" = JArr [])
  /\ (forall get user_id,
        get user_id = Failure e ->
        TwitterClient.get_user_info get user_id = Return NoInfo
        /\ TwitterClient.find_contact_info get user_id = Return None)
  /\ (forall username concerns cs reply,
        GrokClient.concerns_str concerns = Return cs ->
        reply cs = Failure e ->
        GrokClient.generate_support_message username concerns reply
        = Return (GrokClient.error_message username))
  /\ (forall get woeid token n fields,
        (forall p, get p = Failure e) ->
        fetch_trends_by_woeid get woeid token n fields
        = Raise (RequestException e)).
Proof.
  repeat split.
  - intros get q n H. unfold TwitterClient.search_posts. rewrite H.
    now destruct e.
  - eexists. repeat split.
  - unfold TwitterClient.get_user_info. now rewrite H.
  - unfold TwitterClient.find_contact_info, TwitterClient.get_user_info.
    now rewrite H.
  - intros username concerns cs reply Hc Hr.
    unfold GrokClient.generate_support_message. rewrite Hc. cbn [bind].
    now rewrite Hr.
  - intros get woeid token n fields H. unfold fetch_trends_by_woeid.
    rewrite H. now destruct e.
Qed.

Lemma request_failures_handled_witness :
  TwitterClient.search_posts (fun _ => Failure (TransportError "timed out"))
    "rain" 20 = Return []
  /\ TwitterClient.find_contact_info
       (fun _ => Failure (TransportError "timed out")) (Some "42") = Return None
  /\ GrokClient.generate_support_message "sam" (JArr [JStr "grief"])
       (fun _ => Failure (TransportError "timed out"))
     = Return (GrokClient.error_message "sam")
  /\ fetch_trends_by_woeid (fun _ => Failure (TransportError "timed out"))
       1 "token" 20 None
     = Raise (RequestException (TransportError "timed out")).
Proof.
  destruct (request_failures_handled Json.loads (TransportError "timed out"))
    as (Hs & _ & Hu & Hm & Ht).
  refine (conj _ (conj _ (conj _ _))).
  - apply Hs. reflexivity.
  - apply (Hu (fun _ => Failure (TransportError "timed out"))). reflexivity.
  - apply (Hm "sam" (JArr [JStr "grief"]) "grief"); reflexivity.
  - apply Ht. reflexivity.
Defined.

(** ** The search request (C4, C5) *)

Section SearchRequest.

(** The one request of [search_posts]: the reply to it is the result, and
    no other reply is looked at. *)
Lemma search_posts_request (q : string) (n : Z) :
  (forall get body,
      get (TwitterClient.search_params q n) = Response body ->
      TwitterClient.search_posts get q n
      = Return (TwitterClient.posts_of_body body))
  /\ (forall get get',
        get (TwitterClient.search_params q n)
        = get' (TwitterClient.search_params q n) ->
        TwitterClient.search_posts get q n
        = TwitterClient.search_posts get' q n).
Proof.
  unfold TwitterClient.search_posts. split.
  - intros get body ->. reflexivity.
  - intros get get' ->. reflexivity.
Qed.

End SearchRequest.

(** C4: [search_posts] sends one request; the reply to this request is what
    it returns, no other request is looked at, and the [max_results] of this
    request is the argument clamped to [10, 100]: 10 below the range, 100
    above it, and the argument itself inside. *)
Theorem search_posts_clamps_max_results (q : string) (n : Z) :
  exists sent : SearchParams,
    (10 <= max_results sent <= 100)%Z
    /\ ((n < 10)%Z -> max_results sent = 10%Z)
    /\ ((100 < n)%Z -> max_results sent = 100%Z)
    /\ ((10 <= n <= 100)%Z -> max_results sent = n)
    /\ (forall get body,
          get sent = Response body ->
          TwitterClient.search_posts get q n
          = Return (TwitterClient.posts_of_body body))
    /\ (forall get get',
          get sent = get' sent ->
          TwitterClient.search_posts get q n
          = TwitterClient.search_posts get' q n).
Proof.
  exists (TwitterClient.search_params q n).
  destruct (search_posts_request q n) as [Hr Hd].
  refine (conj _ (conj _ (conj _ (conj _ (conj Hr Hd)))));
    cbn [TwitterClient.search_params max_results]; lia.
Qed.

Lemma search_posts_clamps_max_results_witness :
  TwitterClient.search_posts
    (fun p => if (max_results p =? 10)%Z
              then Response (Sample.body [Sample.tweet "7" "rain again"])
              else Failure (HTTPError 400))
    "rain" 3
  = Return [Sample.post_of "7" "rain again"].
Proof.
  destruct (search_posts_clamps_max_results "rain" 3)
    as (sent & _ & Hlow & _ & _ & Hget & _).
  rewrite (Hget _ (Sample.body [Sample.tweet "7" "rain again"])).
  - vm_compute. reflexivity.
  - rewrite Hlow by lia. reflexivity.
Defined.

(** C5: the query of the one request that [search_posts] sends is the
    literal [lang:en -is:retweet] when the argument is empty or holds
    nothing but white-space characters, and the argument itself, unchanged,
    in every other case. *)
Theorem search_posts_sends_query (q : string) (n : Z) :
  exists sent : SearchParams,
    (Str.only_whitespace q -> query sent = "lang:en -is:retweet")
    /\ (~ Str.only_whitespace q -> query sent = q)
    /\ (forall get body,
          get sent = Response body ->
          TwitterClient.search_posts get q n
          = Return (TwitterClient.posts_of_body body))
    /\ (forall get get',
          get sent = get' sent ->
          TwitterClient.search_posts get q n
          = TwitterClient.search_posts get' q n).
Proof.
  exists (TwitterClient.search_params q n).
  destruct (search_posts_request q n) as [Hr Hd].
  refine (conj _ (conj _ (conj Hr Hd)));
    cbn [TwitterClient.search_params query]; intros H.
  - apply strip_empty in H. rewrite H, orb_true_r. reflexivity.
  - assert (Hs : Str.strip q <> EmptyString).
    { intros E. apply strip_empty in E. contradiction. }
    apply String.eqb_neq in Hs. rewrite Hs.
    destruct q; [|reflexivity].
    exfalso. apply H. exists []. split; [constructor|reflexivity].
Qed.

Lemma search_posts_sends_query_witness :
  TwitterClient.search_posts
    (fun p => if String.eqb (query p) "lang:en -is:retweet"
              then Response (Sample.body [Sample.tweet "7" "rain again"])
              else Failure (HTTPError 400))
    (Str.encode 160 ++ " ") 50
  = Return [Sample.post_of "7" "rain again"]
  /\ TwitterClient.search_posts
       (fun p => if String.eqb (query p) "feeling sad"
                 then Response (Sample.body [Sample.tweet "7" "rain again"])
                 else Failure (HTTPError 400))
       "feeling sad" 50
     = Return [Sample.post_of "7" "rain again"].
Proof.
  split.
  - destruct (search_posts_sends_query (Str.encode 160 ++ " ") 50)
      as (sent & Hblank & _ & Hget & _).
    rewrite (Hget _ (Sample.body [Sample.tweet "7" "rain again"])).
    + vm_compute. reflexivity.
    + rewrite Hblank; [reflexivity|].
      exists [160%N; 32%N]. split; [|vm_compute; reflexivity].
      repeat constructor; vm_compute; tauto.
  - destruct (search_posts_sends_query "feeling sad" 50)
      as (sent & _ & Hother & Hget & _).
    rewrite (Hget _ (Sample.body [Sample.tweet "7" "rain again"])).
    + vm_compute. reflexivity.
    + rewrite Hother; [reflexivity|].
      intros H. apply strip_empty in H. vm_compute in H. discriminate H.
Defined.

(** ** The readiness flags (C9) *)

(** C9: [MemoryManager.is_ready] and [RAGManager.is_ready] answer [True] in
    every state of the two managers, so the health check reports both
    subsystems as ready whatever happened during initialisation. *)
Theorem is_ready_always (memory_manager : MemoryManager)
    (rag_manager : RAGManager) (utcnow : string) :
  Memory.is_ready memory_manager = true
  /\ RAG.is_ready rag_manager = true
  /\ health_memory (health_check memory_manager rag_manager utcnow) = true
  /\ health_rag (health_check memory_manager rag_manager utcnow) = true.
Proof.
  cbn [health_check health_memory health_rag].
  unfold Memory.is_ready, RAG.is_ready.
  destruct (mm_ready memory_manager), (rag_ready rag_manager); auto.
Qed.

(** ** The verdict parser (C3, C10) *)

(** C3, as stated, fails on fenced JSON that holds a fence itself: the text
    between the markers is valid JSON, but the parser cuts it at the first
    fence behind the opening one, the piece does not decode, and the
    heuristic verdict comes back in place of the parsed value. *)
Lemma salvage_cuts_json_at_inner_fence :
  Sample.fenced_fence = "```json" ++ Sample.fence_inside ++ "```"
  /\ Json.loads Sample.fence_inside = Some (JArr [JStr "```"])
  /\ GrokClient.analyze_sentiment Json.loads (Response Sample.fenced_fence)
     <> Return (JArr [JStr "```"])
  /\ exists verdict,
       GrokClient.analyze_sentiment Json.loads (Response Sample.fenced_fence)
       = Return (JObj verdict)
       /\ Py.get verdict "needs_support" = JBool true
       /\ Py.get verdict "reasoning" = JStr (String "[" (String Json.dquote EmptyString)).
Proof.
  refine (conj eq_refl (conj _ (conj _ _))).
  - vm_compute. reflexivity.
  - vm_compute. discriminate.
  - eexists. refine (conj _ (conj _ _)); vm_compute; reflexivity.
Qed.

(** C3, as amended.  When the reply reads [pre ```json body ``` post], with
    no [```json] before this one, no fence inside [body] (nor one that the
    closing backticks complete) and no [```json] spelled by the closing
    backticks with what follows them, and the stripped [body] decodes,
    [analyze_sentiment] returns the decoded value; the same holds for
    [pre ``` body ``` post] in a reply without any [```json].  Whatever the
    reply, [analyze_sentiment] returns: it hands one text to the decoder
    (the reply itself when it has no fence), returns the decoded value when
    this text decodes, and otherwise the heuristic verdict made from this
    text: [is_negative] tells whether the lower-cased text contains
    [negative] or [true], [sentiment] is [negative] or [neutral] by the first
    test, [severity] is [medium], [concerns] is empty, [needs_support] is
    true and [reasoning] is the first 200 characters of the text. *)
Theorem analyze_sentiment_salvages (json_loads : string -> option json) :
  (forall pre body post v,
      Str.contains "```json" (pre ++ "```jso") = false ->
      Str.contains "```" (body ++ "``") = false ->
      String.prefix "`json" post = false ->
      String.prefix "``json" post = false ->
      json_loads (Str.strip body) = Some v ->
      GrokClient.analyze_sentiment json_loads
        (Response (pre ++ "```json" ++ body ++ "```" ++ post)) = Return v)
  /\ (forall pre body post v,
        Str.contains "```json" (pre ++ "```" ++ body ++ "```" ++ post) = false ->
        Str.contains "```" (pre ++ "``") = false ->
        Str.contains "```" (body ++ "``") = false ->
        json_loads (Str.strip body) = Some v ->
        GrokClient.analyze_sentiment json_loads
          (Response (pre ++ "```" ++ body ++ "```" ++ post)) = Return v)
  /\ (forall content,
        exists text,
          GrokClient.salvage content = Return text
          /\ (Str.contains "```" content = false -> text = content)
          /\ (forall v,
                json_loads text = Some v ->
                GrokClient.analyze_sentiment json_loads (Response content)
                = Return v)
          /\ (json_loads text = None ->
              GrokClient.analyze_sentiment json_loads (Response content)
              = Return
                  (JObj
                     [ ("is_negative",
                         JBool (Str.contains "negative" (Str.lower text)
                                || Str.contains "true" (Str.lower text)));
                       ("sentiment",
                         JStr (if Str.contains "negative" (Str.lower text)
                               then "negative" else "neutral"));
                       ("severity", JStr "medium");
                       ("concerns", JArr []);
                       ("needs_support", JBool true);
                       ("reasoning", JStr (Str.take_chars 200 text)) ]))).
Proof.
  refine (conj _ (conj _ _)).
  - intros pre body post v Hpre Hbody Hp1 Hp2 Hv.
    cbn [GrokClient.analyze_sentiment]. unfold GrokClient.parse_verdict.
    rewrite (salvage_json_block pre body post Hpre Hbody Hp1 Hp2). cbn [bind].
    now rewrite Hv.
  - intros pre body post v Hno Hpre Hbody Hv.
    cbn [GrokClient.analyze_sentiment]. unfold GrokClient.parse_verdict.
    rewrite (salvage_plain_block pre body post Hno Hpre Hbody). cbn [bind].
    now rewrite Hv.
  - intros content. destruct (salvage_returns content) as [text Ht].
    exists text. refine (conj Ht (conj _ (conj _ _))).
    + intros H. rewrite (salvage_unfenced content H) in Ht. congruence.
    + intros v Hv. cbn [GrokClient.analyze_sentiment].
      unfold GrokClient.parse_verdict. rewrite Ht. cbn [bind]. now rewrite Hv.
    + intros Hv. cbn [GrokClient.analyze_sentiment].
      unfold GrokClient.parse_verdict. rewrite Ht. cbn [bind]. now rewrite Hv.
Qed.

Lemma analyze_sentiment_salvages_witness :
  GrokClient.analyze_sentiment Json.loads (Response Sample.alarm)
  = Return (JObj Sample.alarm_verdict)
  /\ GrokClient.analyze_sentiment Json.loads
       (Response ("Result:" ++ "```" ++ "  [1, 2] " ++ "```" ++ EmptyString))
     = Return (JArr [JNum 1; JNum 2])
  /\ GrokClient.analyze_sentiment Json.loads (Response "probably negative")
     = Return
         (JObj [ ("is_negative", JBool true); ("sentiment", JStr "negative");
                 ("severity", JStr "medium"); ("concerns", JArr []);
                 ("needs_support", JBool true);
                 ("reasoning", JStr "probably negative") ]).
Proof.
  destruct (analyze_sentiment_salvages Json.loads) as (Hj & Hp & Hf).
  refine (conj _ (conj _ _)).
  - apply (Hj "Here it is: " Sample.alarm_text " hope this helps");
      vm_compute; reflexivity.
  - apply (Hp "Result:" "  [1, 2] " EmptyString); vm_compute; reflexivity.
  - destruct (Hf "probably negative") as (text & _ & Hu & _ & Hv).
    assert (E : text = "probably negative")
      by (apply Hu; vm_compute; reflexivity).
    subst text. rewrite Hv; vm_compute; reflexivity.
Defined.




(** ** The two loops of [scan_and_analyze] *)

Section PipelineFacts.

Variable json_loads : string -> option json.
Variable w : World.

Local Open Scope list_scope.

Lemma accepts_dict d :
  (both_flags d = true -> joinable d = true) ->
  accepts (JObj d) = Return (both_flags d).
Proof.
  unfold both_flags, joinable, accepts. intros H.
  destruct (Py.truthy (Py.get d "is_negative")
            && Py.truthy (Py.get d "needs_support")); [|reflexivity].
  destruct (Py.iter_strings _); [reflexivity|].
  specialize (H eq_refl). discriminate.
Qed.

Lemma analyze_loop_filter : forall run idx acc,
  answers json_loads w idx run ->
  Forall printable run ->
  analyze_loop json_loads w idx (map fst run) acc
  = Return (acc ++ map kept (accepted run)).
Proof.
  induction run as [|[post d] run IH]; intros idx acc Ha Hp.
  - cbn. now rewrite app_nil_r.
  - destruct Ha as [Hc Ha]. inversion Hp as [|? ? Hd Hp']; subst.
    cbn [map fst analyze_loop]. rewrite Hc. cbn [bind].
    rewrite (accepts_dict d Hd). cbn [bind].
    rewrite (IH (S idx) _ Ha Hp'). unfold accepted. cbn [List.filter snd].
    destruct (both_flags d); [|reflexivity].
    cbn [map]. now rewrite <- app_assoc.
Qed.

Lemma accepts_unjoinable d :
  both_flags d = true -> joinable d = false ->
  accepts (JObj d) = Raise TypeError.
Proof.
  unfold both_flags, joinable, accepts. intros -> H.
  now destruct (Py.iter_strings _).
Qed.

Lemma accepts_no_dict v :
  (forall d, v <> JObj d) -> accepts v = Raise AttributeError.
Proof. intros H. destruct v; try reflexivity. now destruct (H fields). Qed.

(** The loop stops at the first verdict on which the test or the printing
    raises. *)
Lemma analyze_loop_abort : forall run idx acc post v e later,
  answers json_loads w idx run ->
  Forall printable run ->
  classify json_loads w (idx + length run) post = Return v ->
  accepts v = Raise e ->
  analyze_loop json_loads w idx (map fst run ++ post :: later) acc
  = Raise e.
Proof.
  induction run as [|[p0 d0] run IH];
    intros idx acc post v e later Ha Hp Hc He.
  - rewrite Nat.add_0_r in Hc. cbn [map app analyze_loop].
    rewrite Hc. cbn [bind]. now rewrite He.
  - destruct Ha as [Hc0 Ha]. inversion Hp as [|? ? Hd Hp']; subst.
    cbn [map fst app analyze_loop]. rewrite Hc0. cbn [bind].
    rewrite (accepts_dict d0 Hd). cbn [bind].
    apply (IH (S idx) _ post v e later Ha Hp'); [|exact He].
    cbn [length] in Hc. now rewrite Nat.add_succ_r in Hc.
Qed.

Lemma scan_abort run query max_posts dry_run post v e later :
  TwitterClient.search_posts (search_api w) query max_posts
  = Return (map fst run ++ post :: later) ->
  answers json_loads w 1 run ->
  Forall printable run ->
  classify json_loads w (S (length run)) post = Return v ->
  accepts v = Raise e ->
  scan_and_analyze json_loads w query max_posts dry_run = Raise e.
Proof.
  intros Hs Ha Hp Hc He. unfold scan_and_analyze. rewrite Hs. cbn [bind].
  destruct (map fst run ++ post :: later) as [|p0 ps] eqn:E.
  - now destruct (map fst run).
  - rewrite <- E.
    now rewrite (analyze_loop_abort run 1 [] post v e later Ha Hp Hc He).
Qed.

Lemma scan_writes_at_most_one query max_posts dry_run :
  length (files_written
            (scan_and_analyze json_loads w query max_posts dry_run)) <= 1.
Proof.
  unfold scan_and_analyze.
  destruct (TwitterClient.search_posts (search_api w) query max_posts)
    as [[|post posts]|e]; cbn [bind files_written written length]; [lia| |lia].
  destruct (analyze_loop json_loads w 1 (post :: posts) [])
    as [negative_posts|e]; cbn [bind files_written length]; [|lia].
  destruct (draft_loop w 1 negative_posts []) as [[|e0 entries]|e];
    cbn [bind files_written written save length]; lia.
Qed.

Lemma accepted_flags run :
  Forall (fun pd => both_flags (snd pd) = true) (accepted run).
Proof.
  apply List.Forall_forall. intros pd H. unfold accepted in H.
  now apply List.filter_In in H.
Qed.

Lemma accepted_joinable run :
  Forall printable run ->
  Forall (fun pd => joinable (snd pd) = true) (accepted run).
Proof.
  intros Hp. apply List.Forall_forall. intros pd H. unfold accepted in H.
  apply List.filter_In in H as [Hin Hf].
  rewrite List.Forall_forall in Hp. exact (Hp pd Hin Hf).
Qed.

Lemma draft_returns idx post d :
  joinable d = true ->
  exists e, draft w idx (kept (post, d)) = Return e
            /\ drafted_from (post, d) e.
Proof.
  intros Hj. unfold kept, draft. cbn [fst snd].
  unfold TwitterClient.find_contact_info, TwitterClient.get_user_info.
  assert (Hc : exists cs,
             GrokClient.concerns_str (Py.get_default d "concerns" (JArr []))
             = Return cs).
  { unfold GrokClient.concerns_str. unfold joinable in Hj.
    destruct (Py.truthy _); [|eauto].
    destruct (Py.iter_strings _); [eauto | discriminate]. }
  destruct Hc as [cs Hc].
  unfold GrokClient.generate_support_message. cbn [concerns_of bind].
  destruct (users_api w idx (p_author_id post)) as [[u|]|e]; cbn [bind];
    rewrite Hc; cbn [bind];
    destruct (draft_api w idx (p_text post) (p_username post) cs);
    eexists; (split; [reflexivity | repeat split]).
Qed.

Lemma draft_loop_spec : forall run idx acc,
  Forall (fun pd => joinable (snd pd) = true) run ->
  exists entries,
    draft_loop w idx (map kept run) acc = Return (acc ++ entries)
    /\ Forall2 drafted_from run entries.
Proof.
  induction run as [|[post d] run IH]; intros idx acc Hj.
  - exists []. cbn. rewrite app_nil_r. auto.
  - inversion Hj as [|? ? Hd Hj']; subst. cbn [snd] in Hd.
    destruct (draft_returns idx post d Hd) as (e & He & Hfrom).
    destruct (IH (S idx) (acc ++ [e]) Hj') as (entries & Hl & Hall).
    exists (e :: entries). cbn [map draft_loop]. rewrite He. cbn [bind].
    rewrite Hl, <- app_assoc. auto.
Qed.

Lemma scan_spec run query max_posts dry_run :
  TwitterClient.search_posts (search_api w) query max_posts
  = Return (map fst run) ->
  answers json_loads w 1 run ->
  Forall printable run ->
  exists entries,
    Forall2 drafted_from (accepted run) entries
    /\ scan_and_analyze json_loads w query max_posts dry_run
       = Return {| results_data := entries;
                   written := save w query (map fst run)
                                (map kept (accepted run)) entries |}.
Proof.
  intros Hs Ha Hp. unfold scan_and_analyze. rewrite Hs. cbn [bind].
  destruct run as [|pd run].
  - exists []. cbn. auto.
  - cbn [map]. change (fst pd :: map fst run) with (map fst (pd :: run)).
    rewrite (analyze_loop_filter (pd :: run) 1 [] Ha Hp). cbn [bind app].
    destruct (draft_loop_spec (accepted (pd :: run)) 1 []
                (accepted_joinable _ Hp)) as (entries & Hl & Hall).
    rewrite Hl. cbn [bind app]. eauto.
Qed.

Lemma accepted_sublist run :
  sublist (map fst (accepted run)) (map fst run).
Proof.
  induction run as [|pd run IH]; cbn; [constructor|].
  destruct (both_flags (snd pd)); cbn; now constructor.
Qed.

Lemma kept_in post d run :
  In (post, JObj d) (map kept run) <-> In (post, d) run.
Proof.
  rewrite in_map_iff. split.
  - intros ([p' d'] & E & H). unfold kept in E. cbn [fst snd] in E.
    injection E as -> ->. exact H.
  - intros H. exists (post, d). auto.
Qed.

End PipelineFacts.

(** ** The filter stage (C2) *)

(** C2, as stated, fails on a verdict whose concerns cannot be joined: the
    second post of the run has [is_negative] and [needs_support] both true,
    but its concerns are [null]; printing them raises [TypeError] before the
    post is appended, and the run ends without any accepted post. *)
Lemma filter_loses_post_with_both_flags :
  classify Json.loads Sample.broken 2 (Sample.post_of "9" "nobody would notice")
  = Return (JObj Sample.null_concerns_verdict)
  /\ Py.get Sample.null_concerns_verdict "is_negative" = JBool true
  /\ Py.get Sample.null_concerns_verdict "needs_support" = JBool true
  /\ analyze_loop Json.loads Sample.broken 1
       [Sample.post_of "8" "so tired of it all";
        Sample.post_of "9" "nobody would notice"] []
     = Raise TypeError
  /\ scan_and_analyze Json.loads Sample.broken "tired" 20 true
     = Raise TypeError.
Proof.
  refine (conj _ (conj eq_refl (conj eq_refl (conj _ _))));
    vm_compute; reflexivity.
Qed.

(** C2, as amended.  Take the rounds of a run, each post with the verdict it
    received, every verdict a dictionary whose concerns, where both flags are
    set, can be joined for printing.  When these are all the rounds, the
    filter stage returns exactly the rounds whose verdict has [is_negative]
    and [needs_support] both true in Python's sense, in order; a round with
    one flag or none is left out.  When the next round brings a verdict with
    both flags whose concerns cannot be joined, the stage raises [TypeError]
    there and returns nothing, whatever posts follow; when it brings a
    verdict that is no dictionary, the stage raises [AttributeError]. *)
Theorem filter_keeps_both_flags (json_loads : string -> option json)
    (w : World) (run : list (Post * dict)) :
  answers json_loads w 1 run ->
  Forall printable run ->
  (exists negative_posts,
     analyze_loop json_loads w 1 (map fst run) [] = Return negative_posts
     /\ negative_posts = map kept (accepted run)
     /\ (forall post d,
           In (post, JObj d) negative_posts
           <-> In (post, d) run
               /\ Py.truthy (Py.get d "is_negative") = true
               /\ Py.truthy (Py.get d "needs_support") = true))
  /\ (forall post d later,
        classify json_loads w (S (length run)) post = Return (JObj d) ->
        Py.truthy (Py.get d "is_negative") = true ->
        Py.truthy (Py.get d "needs_support") = true ->
        joinable d = false ->
        analyze_loop json_loads w 1 (map fst run ++ post :: later)%list []
        = Raise TypeError)
  /\ (forall post v later,
        classify json_loads w (S (length run)) post = Return v ->
        (forall d, v <> JObj d) ->
        analyze_loop json_loads w 1 (map fst run ++ post :: later)%list []
        = Raise AttributeError).
Proof.
  intros Ha Hp. refine (conj _ (conj _ _)).
  - exists (map kept (accepted run)).
    refine (conj _ (conj eq_refl _)).
    + apply (analyze_loop_filter json_loads w run 1 [] Ha Hp).
    + intros post d. rewrite kept_in. unfold accepted.
      rewrite List.filter_In. unfold both_flags. cbn [snd].
      now rewrite andb_true_iff.
  - intros post d later Hc Hn Hs Hj.
    apply (analyze_loop_abort json_loads w run 1 [] post (JObj d) TypeError
             later Ha Hp Hc).
    apply accepts_unjoinable; [|exact Hj].
    unfold both_flags. now rewrite Hn, Hs.
  - intros post v later Hc Hv.
    apply (analyze_loop_abort json_loads w run 1 [] post v AttributeError
             later Ha Hp Hc).
    now apply accepts_no_dict.
Qed.

Lemma filter_keeps_both_flags_witness :
  analyze_loop Json.loads Sample.mixed 1
    [Sample.post_of "8" "great day"; Sample.post_of "9" "so tired of it all"] []
  = Return [(Sample.post_of "9" "so tired of it all", JObj Sample.alarm_verdict)]
  /\ analyze_loop Json.loads Sample.broken 1
       [Sample.post_of "8" "so tired of it all";
        Sample.post_of "9" "nobody would notice"] []
     = Raise TypeError.
Proof.
  split.
  - destruct (filter_keeps_both_flags Json.loads Sample.mixed
                [(Sample.post_of "8" "great day", Sample.cheerful_verdict);
                 (Sample.post_of "9" "so tired of it all",
                  Sample.alarm_verdict)])
      as ((negative_posts & Hl & -> & _) & _).
    + vm_compute. auto.
    + repeat constructor; vm_compute; congruence.
    + exact Hl.
  - destruct (filter_keeps_both_flags Json.loads Sample.broken
                [(Sample.post_of "8" "so tired of it all",
                  Sample.alarm_verdict)])
      as (_ & Hb & _).
    + vm_compute. auto.
    + repeat constructor; vm_compute; congruence.
    + apply (Hb (Sample.post_of "9" "nobody would notice")
               Sample.null_concerns_verdict []);
        vm_compute; reflexivity.
Defined.

(** ** Order and duplicates (C7) *)

(** C7: the posts are processed in the order the search returned them,
    nothing is re-ordered or merged: the accepted posts are a subsequence of
    the fetched ones, and the records of the run are drafted from the
    accepted rounds one for one and in the same order, so a post fetched
    twice and accepted twice has two records. *)
Theorem scan_keeps_order (json_loads : string -> option json) (w : World)
    (run : list (Post * dict)) (query : string) (max_posts : Z)
    (dry_run : bool) :
  TwitterClient.search_posts (search_api w) query max_posts
  = Return (map fst run) ->
  answers json_loads w 1 run ->
  Forall printable run ->
  exists out,
    scan_and_analyze json_loads w query max_posts dry_run = Return out
    /\ Forall2 drafted_from (accepted run) (results_data out)
    /\ sublist (map fst (accepted run)) (map fst run)
    /\ map r_original_post (results_data out)
       = map (fun pd => p_text (fst pd)) (accepted run)
    /\ length (results_data out) = length (accepted run).
Proof.
  intros Hs Ha Hp.
  destruct (scan_spec json_loads w run query max_posts dry_run Hs Ha Hp)
    as (entries & Hall & ->).
  eexists. refine (conj eq_refl (conj Hall (conj (accepted_sublist run) _))).
  cbn [results_data]. clear - Hall. split.
  - induction Hall as [|pd e ? ? (Ht & _) _ IH]; cbn; [reflexivity|].
    now rewrite Ht, IH.
  - induction Hall; cbn; auto.
Qed.

Lemma scan_keeps_order_witness :
  exists out,
    scan_and_analyze Json.loads Sample.twice "tired" 20 true = Return out
    /\ map r_original_post (results_data out)
       = ["so tired of it all"; "so tired of it all"].
Proof.
  destruct (scan_keeps_order Json.loads Sample.twice
              [(Sample.post_of "7" "so tired of it all", Sample.alarm_verdict);
               (Sample.post_of "7" "so tired of it all", Sample.alarm_verdict)]
              "tired" 20 true)
    as (out & Ho & _ & _ & Hm & _).
  - vm_compute. reflexivity.
  - vm_compute. auto.
  - repeat constructor.
  - exists out. split; [exact Ho | exact Hm].
Defined.

(** ** The report (C6) *)

(** C6, as stated, fails on a run that accepts no post: one post is fetched,
    the classifier is down, the neutral verdict rejects the post, and the run
    ends without having written any file. *)
Lemma scan_without_accepted_post_writes_nothing :
  exists out,
    scan_and_analyze Json.loads Sample.quiet EmptyString 50 false = Return out
    /\ results_data out = []
    /\ written out = [].
Proof.
  exists {| results_data := []; written := [] |}.
  refine (conj _ (conj eq_refl eq_refl)). vm_compute. reflexivity.
Qed.

(** C6, as amended.  Take the rounds of a run, every verdict a dictionary
    whose concerns, where both flags are set, can be joined.  When these are
    all the rounds, the run completes; having accepted at least one post it
    has written exactly one report, named after the time stamp, whose
    [results] are all the records drafted in the run, one for each accepted
    post, and having accepted none it has written no file.  When the next
    round brings a verdict with both flags whose concerns cannot be joined,
    or a verdict that is no dictionary, the run is left through [TypeError]
    or [AttributeError] and has written no file, whatever it had accepted
    before.  No run writes more than one file. *)
Theorem scan_writes_one_report (json_loads : string -> option json)
    (w : World) (run : list (Post * dict)) (query : string) (max_posts : Z)
    (dry_run : bool) :
  answers json_loads w 1 run ->
  Forall printable run ->
  (TwitterClient.search_posts (search_api w) query max_posts
   = Return (map fst run) ->
   exists out,
     scan_and_analyze json_loads w query max_posts dry_run = Return out
     /\ files_written (scan_and_analyze json_loads w query max_posts dry_run)
        = written out
     /\ (accepted run = [] -> written out = [])
     /\ (accepted run <> [] ->
         exists report,
           written out
           = [("support_outreach_" ++ now_file w ++ ".json", report)]
           /\ results report = results_data out
           /\ Forall2 drafted_from (accepted run) (results report)
           /\ negative_posts_found report = length (accepted run)
           /\ total_posts_scanned report = length run
           /\ report_query report = query))
  /\ (forall post d later,
        TwitterClient.search_posts (search_api w) query max_posts
        = Return (map fst run ++ post :: later)%list ->
        classify json_loads w (S (length run)) post = Return (JObj d) ->
        Py.truthy (Py.get d "is_negative") = true ->
        Py.truthy (Py.get d "needs_support") = true ->
        joinable d = false ->
        scan_and_analyze json_loads w query max_posts dry_run
        = Raise TypeError
        /\ files_written (scan_and_analyze json_loads w query max_posts dry_run)
           = [])
  /\ (forall post v later,
        TwitterClient.search_posts (search_api w) query max_posts
        = Return (map fst run ++ post :: later)%list ->
        classify json_loads w (S (length run)) post = Return v ->
        (forall d, v <> JObj d) ->
        scan_and_analyze json_loads w query max_posts dry_run
        = Raise AttributeError
        /\ files_written (scan_and_analyze json_loads w query max_posts dry_run)
           = [])
  /\ (length (files_written
                (scan_and_analyze json_loads w query max_posts dry_run))
      <= 1)%nat.
Proof.
  intros Ha Hp. refine (conj _ (conj _ (conj _ _))).
  - intros Hs.
    destruct (scan_spec json_loads w run query max_posts dry_run Hs Ha Hp)
      as (entries & Hall & ->).
    eexists. refine (conj eq_refl (conj eq_refl (conj _ _)));
      cbn [written results_data].
    + intros E. rewrite E in Hall. inversion Hall. reflexivity.
    + intros Hne. destruct Hall as [|pd e rest entries Hd Hall]; [congruence|].
      eexists. cbn [save]. refine (conj eq_refl (conj eq_refl _)).
      cbn [results negative_posts_found total_posts_scanned report_query].
      rewrite !length_map. repeat split; auto.
  - intros post d later Hs Hc Hn Hsup Hj.
    assert (Hf : both_flags d = true)
      by (unfold both_flags; now rewrite Hn, Hsup).
    rewrite (scan_abort json_loads w run query max_posts dry_run post (JObj d)
               TypeError later Hs Ha Hp Hc (accepts_unjoinable d Hf Hj)).
    split; reflexivity.
  - intros post v later Hs Hc Hv.
    rewrite (scan_abort json_loads w run query max_posts dry_run post v
               AttributeError later Hs Ha Hp Hc (accepts_no_dict v Hv)).
    split; reflexivity.
  - apply scan_writes_at_most_one.
Qed.

Lemma scan_writes_one_report_witness :
  (exists out report,
     scan_and_analyze Json.loads Sample.mixed "tired" 20 true = Return out
     /\ written out = [("support_outreach_20260101_120000.json", report)]
     /\ results report = results_data out
     /\ negative_posts_found report = 1)
  /\ files_written (scan_and_analyze Json.loads Sample.broken "tired" 20 true)
     = [].
Proof.
  split.
  - destruct (scan_writes_one_report Json.loads Sample.mixed
                [(Sample.post_of "8" "great day", Sample.cheerful_verdict);
                 (Sample.post_of "9" "so tired of it all",
                  Sample.alarm_verdict)]
                "tired" 20 true)
      as (Hdone & _).
    + vm_compute. auto.
    + repeat constructor; vm_compute; congruence.
    + destruct Hdone as (out & Ho & _ & _ & Hw); [vm_compute; reflexivity|].
      destruct Hw as (report & Hf & Hr & _ & Hn & _).
      * vm_compute. discriminate.
      * exists out, report. auto.
  - destruct (scan_writes_one_report Json.loads Sample.broken
                [(Sample.post_of "8" "so tired of it all",
                  Sample.alarm_verdict)]
                "tired" 20 true)
      as (_ & Habort & _ & _).
    + vm_compute. auto.
    + repeat constructor; vm_compute; congruence.
    + apply (Habort (Sample.post_of "9" "nobody would notice")
               Sample.null_concerns_verdict []);
        vm_compute; reflexivity.
Defined.

(** ** The memory fallback (C8) *)





(** * Further properties of the code *)

(** ** The search result (analyze_and_support.py, lines 248-271) *)

Section SearchFacts.

Local Open Scope list_scope.

Lemma find_snoc {A : Type} (p : A -> bool) (l : list A) (x : A) :
  List.find p (l ++ [x])
  = match List.find p l with
    | Some y => Some y
    | None => if p x then Some x else None
    end.
Proof.
  induction l as [|y l IH]; cbn; [reflexivity|].
  destruct (p y); [reflexivity | exact IH].
Qed.

Lemma users_by_id_fold (users : list User) : forall (m : gmap string User) a,
  fold_left (fun m u => <[u_id u := u]> m) users m !! a
  = match List.find (fun u => String.eqb (u_id u) a) (rev users) with
    | Some u => Some u
    | None => m !! a
    end.
Proof.
  induction users as [|u users IH]; intros m a; cbn [fold_left rev].
  - reflexivity.
  - rewrite IH, find_snoc.
    destruct (List.find _ (rev users)); [reflexivity|].
    destruct (String.eqb_spec (u_id u) a) as [->|Hne].
    + apply lookup_insert_eq.
    + now apply lookup_insert_ne.
Qed.

Lemma users_by_id_lookup (users : list User) (a : string) :
  TwitterClient.users_by_id users !! a
  = List.find (fun u => String.eqb (u_id u) a) (rev users).
Proof.
  unfold TwitterClient.users_by_id. rewrite users_by_id_fold.
  now destruct (List.find _ (rev users)).
Qed.

End SearchFacts.

(** X1: a search response without an [errors] key yields one post per tweet,
    in order, each with the tweet's id, text (empty when missing) and author
    id; the post's username is that of the last included user carrying the
    author's id, and [unknown] when no included user does or that user has no
    username. *)
Theorem search_posts_joins_authors (get : SearchParams -> http SearchBody)
    (q : string) (n : Z) (body : SearchBody) :
  get (TwitterClient.search_params q n) = Response body ->
  b_errors body = None ->
  exists posts,
    TwitterClient.search_posts get q n = Return posts
    /\ Forall2
         (fun tweet post =>
            p_id post = t_id tweet
            /\ p_text post = default EmptyString (t_text tweet)
            /\ p_author_id post = t_author_id tweet
            /\ p_username post
               = default "unknown"
                   (match t_author_id tweet with
                    | Some a =>
                        List.find (fun u => String.eqb (u_id u) a)
                          (rev (default [] (b_includes_users body)))
                    | None => None
                    end ≫= u_username))
         (default [] (b_data body)) posts.
Proof.
  intros Hg He. unfold TwitterClient.search_posts. rewrite Hg.
  eexists. split; [reflexivity|].
  unfold TwitterClient.posts_of_body. rewrite He.
  induction (default [] (b_data body)) as [|tweet tweets IH]; cbn [map];
    constructor; [|exact IH].
  unfold TwitterClient.post_of_tweet. cbn.
  repeat split. destruct (t_author_id tweet) as [a|]; [|reflexivity].
  now rewrite users_by_id_lookup.
Qed.

Lemma search_posts_joins_authors_witness :
  exists posts,
    TwitterClient.search_posts
      (fun _ => Response (Sample.body [Sample.tweet "7" "so tired"]))
      "tired" 20 = Return posts
    /\ map p_username posts = ["sam"].
Proof.
  destruct (search_posts_joins_authors
              (fun _ => Response (Sample.body [Sample.tweet "7" "so tired"]))
              "tired" 20 (Sample.body [Sample.tweet "7" "so tired"])
              eq_refl eq_refl) as (posts & Hs & Hall).
  exists posts. split; [exact Hs|].
  inversion Hall as [|? post ? ? (_ & _ & _ & Hu) Hrest]; subst.
  inversion Hrest; subst. cbn [map]. rewrite Hu. reflexivity.
Defined.

(** ** Runs that end empty (analyze_and_support.py, lines 399-403, 414-427) *)

(** X2: when the search request fails, or its response carries an [errors]
    key, or it holds no tweet, [scan_and_analyze] returns the empty list and
    writes no file. *)
Theorem scan_without_posts (json_loads : string -> option json) (w : World)
    (q : string) (n : Z) (dry_run : bool) :
  (exists e, search_api w (TwitterClient.search_params q n) = Failure e)
  \/ (exists body,
        search_api w (TwitterClient.search_params q n) = Response body
        /\ (b_errors body <> None \/ default [] (b_data body) = [])) ->
  scan_and_analyze json_loads w q n dry_run
  = Return {| results_data := []; written := [] |}.
Proof.
  intros [[e H] | (body & H & Hb)]; unfold scan_and_analyze,
    TwitterClient.search_posts; rewrite H.
  - now destruct e.
  - cbn [bind]. unfold TwitterClient.posts_of_body.
    destruct (b_errors body); [reflexivity|].
    destruct Hb as [Hb | Hb]; [congruence|]. now rewrite Hb.
Qed.

Lemma scan_without_posts_witness :
  scan_and_analyze Json.loads (Sample.world [] (fun _ => Response Sample.alarm))
    "tired" 20 false
  = Return {| results_data := []; written := [] |}.
Proof.
  apply scan_without_posts. right.
  exists (Sample.body []). split; [reflexivity | right; reflexivity].
Defined.

Section OutageFacts.

Variable json_loads : string -> option json.
Variable w : World.

Lemma analyze_loop_outage : forall posts idx acc,
  (forall idx text username,
      exists e, sentiment_api w idx text username = Failure e) ->
  analyze_loop json_loads w idx posts acc = Return acc.
Proof.
  induction posts as [|post posts IH]; intros idx acc H; cbn [analyze_loop].
  - reflexivity.
  - unfold classify. destruct (H idx (p_text post) (p_username post)) as [e ->].
    cbn [GrokClient.analyze_sentiment bind].
    change (accepts (JObj (GrokClient.api_error_verdict e)))
      with (@Return bool false).
    cbn [bind]. now apply IH.
Qed.

End OutageFacts.

(** X3: while every classification request fails, no post is accepted: the
    run returns no record and writes no file, whatever the search found. *)
Theorem scan_during_outage (json_loads : string -> option json) (w : World)
    (q : string) (n : Z) (dry_run : bool) :
  (forall idx text username,
      exists e, sentiment_api w idx text username = Failure e) ->
  scan_and_analyze json_loads w q n dry_run
  = Return {| results_data := []; written := [] |}.
Proof.
  intros H. unfold scan_and_analyze.
  destruct (TwitterClient.search_posts (search_api w) q n) as [posts|e] eqn:Hs.
  - cbn [bind]. destruct posts as [|post posts]; [reflexivity|].
    rewrite (analyze_loop_outage json_loads w (post :: posts) 1 [] H).
    reflexivity.
  - unfold TwitterClient.search_posts in Hs.
    destruct (search_api w _) as [body|[c|r]]; discriminate.
Qed.

Lemma scan_during_outage_witness :
  scan_and_analyze Json.loads Sample.quiet "tired" 20 false
  = Return {| results_data := []; written := [] |}.
Proof.
  apply scan_during_outage. intros idx text username.
  exists (HTTPError 503). reflexivity.
Defined.


(** ** Parts of a text *)

Section PartFacts.

Lemma contains_app_l_false x s : forall a,
  Str.contains x (a ++ s) = false -> Str.contains x s = false.
Proof.
  induction a as [|c a IH]; intros H; [exact H|].
  rewrite app_cons in H. cbn [Str.contains] in H.
  apply orb_false_elim in H as [_ H]. exact (IH H).
Qed.

(** A text that does not occur in [a ++ s ++ b] does not occur in [s]. *)
Lemma contains_part x a s b :
  Str.contains x (a ++ s ++ b) = false -> Str.contains x s = false.
Proof.
  intros H. apply contains_app_l_false in H.
  exact (contains_app_r_false _ _ _ H).
Qed.

Lemma prefix_drop x : forall s,
  String.prefix x s = true -> s = x ++ Str.drop (String.length x) s.
Proof.
  induction x as [|a x IH]; intros [|c s] H; cbn in *;
    try reflexivity; try discriminate.
  destruct (ascii_dec a c) as [->|]; [|discriminate].
  rewrite app_cons. f_equal. exact (IH s H).
Qed.

Lemma partition_split sep : forall s h r,
  Str.partition sep s = (h, Some r) -> s = h ++ sep ++ r.
Proof.
  induction s as [|c s IH]; intros h r H; cbn [Str.partition] in H;
    destruct (String.prefix sep _) eqn:E.
  - injection H as <- <-. rewrite app_nil. now apply prefix_drop.
  - discriminate.
  - injection H as <- <-. rewrite app_nil. now apply prefix_drop.
  - destruct (Str.partition sep s) as [h' [r'|]]; [|discriminate].
    injection H as <- <-. now rewrite app_cons, <- (IH h' r' eq_refl).
Qed.

Lemma partition_fst_absent sep :
  sep <> EmptyString ->
  forall s, Str.contains sep (fst (Str.partition sep s)) = false.
Proof.
  intros Hsep.
  assert (H0 : Str.contains sep EmptyString = false)
    by (destruct sep; [congruence | reflexivity]).
  induction s as [|c s IH]; cbn [Str.partition];
    destruct (String.prefix sep _) eqn:E; cbn [fst]; try exact H0.
  destruct (partition_fst_split sep s) as [t Ht].
  destruct (Str.partition sep s) as [h o]. cbn [fst] in *.
  cbn [Str.contains]. rewrite IH, orb_false_r.
  destruct (String.prefix sep (String c h)) eqn:E'; [|reflexivity].
  apply (prefix_app_r _ t) in E'. rewrite app_cons, <- Ht in E'. congruence.
Qed.

(** [s[:n]] keeps [n] characters, or all of them, and cuts between two
    characters. *)
Lemma take_chars_split : forall s n,
  exists rest,
    s = Str.take_chars n s ++ rest
    /\ Str.at_boundary rest = true
    /\ Str.len (Str.take_chars n s) = Nat.min n (Str.len s).
Proof.
  induction s as [|c s IH]; intros n.
  - exists EmptyString. cbn. rewrite Nat.min_0_r. auto.
  - cbn [Str.take_chars Str.len].
    destruct (Str.is_continuation c) eqn:Ec.
    + destruct (IH n) as (rest & Hs & Hb & Hl). exists rest.
      rewrite app_cons, <- Hs. cbn [Str.len]. rewrite Ec. auto.
    + destruct n as [|n].
      * exists (String c s). rewrite app_nil. cbn [Str.at_boundary Str.len].
        rewrite Ec. auto.
      * destruct (IH n) as (rest & Hs & Hb & Hl). exists rest.
        rewrite app_cons, <- Hs. cbn [Str.len]. rewrite Ec, Hl. auto.
Qed.

Lemma take_chars_all : forall s n,
  (Str.len s <= n)%nat -> Str.take_chars n s = s.
Proof.
  induction s as [|c s IH]; intros n H; [reflexivity|].
  cbn [Str.take_chars Str.len] in *.
  destruct (Str.is_continuation c).
  - now rewrite IH.
  - destruct n as [|n]; [lia|]. rewrite IH; [reflexivity|lia].
Qed.

End PartFacts.

(** ** The text handed to the decoder (analyze_and_support.py, lines 91-94) *)

(** X4: whatever the reply, the text that [analyze_sentiment] hands to the
    decoder is a part of the reply, and when the reply has a fence this
    text contains no fence. *)
Theorem salvage_part_of_reply (content : string) :
  exists text,
    GrokClient.salvage content = Return text
    /\ (exists a b, content = a ++ text ++ b)
    /\ (Str.contains "```" content = true -> Str.contains "```" text = false).
Proof.
  assert (Hpiece : forall sep r h' r',
             content = h' ++ sep ++ r' -> r' = r ->
             let p := fst (Str.partition "```" (fst (Str.partition sep r))) in
             (exists a b, content = a ++ Str.strip p ++ b)
             /\ Str.contains "```" (Str.strip p) = false).
  { intros sep r h' r' Hc <- p. split.
    - destruct (partition_fst_split sep r') as [t1 H1].
      destruct (partition_fst_split "```" (fst (Str.partition sep r')))
        as [t2 H2].
      destruct (strip_part p) as (a & b & Hp). fold p in H2.
      exists (h' ++ sep ++ a), (b ++ t2 ++ t1).
      rewrite Hc, H1 at 1. rewrite H2 at 1. rewrite Hp at 1.
      now rewrite !app_assoc_s.
    - destruct (strip_part p) as (a & b & Hp).
      apply (contains_part _ a _ b). rewrite <- Hp.
      apply partition_fst_absent. discriminate. }
  destruct (Str.contains "```json" content) eqn:E1.
  - destruct (salvage_json content E1) as (h & r & Hp & ->).
    eexists. split; [reflexivity|].
    destruct (Hpiece "```json" r h r (partition_split _ _ _ _ Hp) eq_refl).
    auto.
  - destruct (Str.contains "```" content) eqn:E2.
    + destruct (salvage_plain content E1 E2) as (h & r & Hp & ->).
      eexists. split; [reflexivity|].
      destruct (Hpiece "```" r h r (partition_split _ _ _ _ Hp) eq_refl).
      auto.
    + rewrite (salvage_unfenced content E2). eexists.
      split; [reflexivity|]. split; [|discriminate].
      exists EmptyString, EmptyString. now rewrite app_nil, app_empty_r.
Qed.

Lemma salvage_part_of_reply_witness :
  exists text,
    GrokClient.salvage Sample.alarm = Return text
    /\ Str.contains "```" text = false.
Proof.
  destruct (salvage_part_of_reply Sample.alarm) as (text & Hs & _ & Hf).
  exists text. split; [exact Hs|]. apply Hf. vm_compute. reflexivity.
Defined.

(** ** The heuristic verdict (analyze_and_support.py, lines 100-107) *)

(** X5: in the heuristic verdict the sentiment is [negative] or [neutral],
    a [negative] sentiment comes with [is_negative] true, the reasoning is
    the first 200 characters of the text (the text is the reasoning followed
    by a rest that begins with a character of its own, and the reasoning has
    200 characters, or as many as the text when that is less: the whole text
    then), and the verdict never stops the filter: its concerns are the
    empty list. *)
Theorem fallback_verdict_consistent (text : string) :
  let verdict := GrokClient.fallback_verdict text in
  (Py.get verdict "sentiment" = JStr "negative"
   \/ Py.get verdict "sentiment" = JStr "neutral")
  /\ (Py.get verdict "sentiment" = JStr "negative" ->
      Py.get verdict "is_negative" = JBool true)
  /\ (exists reasoning rest,
        Py.get verdict "reasoning" = JStr reasoning
        /\ text = reasoning ++ rest
        /\ Str.at_boundary rest = true
        /\ Str.len reasoning = Nat.min 200 (Str.len text))
  /\ ((Str.len text <= 200)%nat -> Py.get verdict "reasoning" = JStr text)
  /\ accepts (JObj verdict) = Return (both_flags verdict).
Proof.
  cbn zeta.
  change (Py.get (GrokClient.fallback_verdict text) "sentiment")
    with (JStr (if Str.contains "negative" (Str.lower text)
                then "negative" else "neutral")).
  change (Py.get (GrokClient.fallback_verdict text) "is_negative")
    with (JBool (Str.contains "negative" (Str.lower text)
                 || Str.contains "true" (Str.lower text))).
  change (Py.get (GrokClient.fallback_verdict text) "reasoning")
    with (JStr (Str.take_chars 200 text)).
  refine (conj _ (conj _ (conj _ (conj _ _)))).
  - destruct (Str.contains "negative" (Str.lower text)); auto.
  - destruct (Str.contains "negative" (Str.lower text)); [reflexivity|].
    discriminate.
  - destruct (take_chars_split text 200) as (rest & Hs & Hb & Hl).
    exists (Str.take_chars 200 text), rest. auto.
  - intros H. now rewrite take_chars_all.
  - apply accepts_dict. reflexivity.
Qed.

Lemma fallback_verdict_consistent_witness :
  Py.get (GrokClient.fallback_verdict "so NEGATIVE") "is_negative" = JBool true
  /\ Py.get (GrokClient.fallback_verdict "so NEGATIVE 💙") "reasoning"
     = JStr "so NEGATIVE 💙".
Proof.
  split.
  - destruct (fallback_verdict_consistent "so NEGATIVE") as (_ & Hn & _).
    apply Hn. vm_compute. reflexivity.
  - destruct (fallback_verdict_consistent "so NEGATIVE 💙")
      as (_ & _ & _ & Hall & _).
    apply Hall. vm_compute. lia.
Defined.


(** ** The drafted message (analyze_and_support.py, lines 173-184) *)

Section MessageFacts.

Lemma remove_char_clean c : forall s,
  Str.contains (String c EmptyString) (GrokClient.remove_char c s) = false.
Proof.
  induction s as [|d s IH]; cbn [GrokClient.remove_char]; [reflexivity|].
  destruct (Ascii.eqb_spec c d) as [->|Hne]; [exact IH|].
  cbn [Str.contains String.prefix]. rewrite IH.
  destruct (ascii_dec c d); [congruence | reflexivity].
Qed.

Lemma strip_keeps_absent x s :
  Str.contains x s = false -> Str.contains x (Str.strip s) = false.
Proof.
  intros H. destruct (strip_part s) as (a & b & Hs).
  rewrite Hs in H. exact (contains_part _ _ _ _ H).
Qed.

(** Line 177: one leading [@] is dropped. *)
Lemma drop_at_cases (m : string) :
  let m' := match m with String "@" rest => rest | _ => m end in
  m' = m \/ m = String "@" m'.
Proof.
  destruct m as [|c rest]; [now left|].
  destruct c as [[] [] [] [] [] [] [] []]; auto.
Qed.

End MessageFacts.

(** X6: when the concerns can be joined, [generate_support_message] returns
    a message that is never empty; a message taken from a reply that
    arrived contains no double quote. *)
Theorem support_message_shape (username : string) (concerns : json)
    (reply : string -> GrokClient.chat) (cs : string) :
  GrokClient.concerns_str concerns = Return cs ->
  exists message,
    GrokClient.generate_support_message username concerns reply
    = Return message
    /\ message <> EmptyString
    /\ (forall content,
          reply cs = Response content ->
          Str.contains (String Json.dquote EmptyString) message = false).
Proof.
  intros Hc. unfold GrokClient.generate_support_message.
  rewrite Hc. cbn [bind].
  destruct (reply cs) as [content|e].
  - set (m := Str.strip
                (GrokClient.remove_char Json.dquote (Str.strip content))).
    assert (Hm : Str.contains (String Json.dquote EmptyString) m = false)
      by apply strip_keeps_absent, remove_char_clean.
    destruct (drop_at_cases m) as [E|E];
      set (m' := match m with String "@" rest => rest | _ => m end) in *.
    + eexists. split; [reflexivity|]. rewrite E.
      destruct m; cbn [Str.is_empty]; split;
        try discriminate; intros; try exact Hm; vm_compute; reflexivity.
    + assert (Hm' : Str.contains (String Json.dquote EmptyString) m' = false).
      { rewrite E in Hm. cbn [Str.contains] in Hm.
        now apply orb_false_elim in Hm. }
      eexists. split; [reflexivity|].
      destruct m'; cbn [Str.is_empty]; split;
        try discriminate; intros; try exact Hm'; vm_compute; reflexivity.
  - eexists. split; [reflexivity|]. split; [discriminate|].
    intros content H. discriminate.
Qed.

Lemma support_message_shape_witness :
  exists message,
    GrokClient.generate_support_message "sam" (JArr [JStr "grief"])
      (fun _ => Response ("@" ++ String Json.dquote "thinking of you"))
    = Return message
    /\ Str.contains (String Json.dquote EmptyString) message = false.
Proof.
  destruct (support_message_shape "sam" (JArr [JStr "grief"])
              (fun _ => Response ("@" ++ String Json.dquote "thinking of you"))
              "grief" eq_refl) as (message & Hm & _ & Hq).
  exists message. split; [exact Hm|]. eapply Hq. reflexivity.
Defined.

(** ** The links of a record (analyze_and_support.py, lines 348-372, 463-474) *)

(** X7: for a post with an id, the record of an accepted round links the
    post under the looked-up username; when the user lookup failed or came
    back without data, the record has no username, no profile link and no
    contact data, and its post link reads [https://twitter.com/None/status/]
    followed by the id. *)
Theorem draft_links (w : World) (idx : nat) (post : Post) (d : dict)
    (id : string) :
  joinable d = true ->
  p_id post = Some id ->
  id <> EmptyString ->
  exists e,
    draft w idx (post, JObj d) = Return e
    /\ (forall u name,
          users_api w idx (p_author_id post) = Response (Some u) ->
          u_username u = Some name -> name <> EmptyString ->
          r_username e = Some name
          /\ r_profile_url e = Some ("https://twitter.com/" ++ name)
          /\ r_post_url e
             = Some ("https://twitter.com/" ++ name ++ "/status/" ++ id))
    /\ ((users_api w idx (p_author_id post) = Response None
         \/ exists err, users_api w idx (p_author_id post) = Failure err) ->
        r_username e = None
        /\ r_profile_url e = None
        /\ r_contact_info e = None
        /\ r_post_url e = Some ("https://twitter.com/None/status/" ++ id)).
Proof.
  intros Hj Hid Hne.
  destruct (draft_returns w idx post d Hj) as (e & He & _).
  exists e. unfold kept in He. cbn [fst snd] in He.
  split; [exact He|].
  assert (Hn : TwitterClient.nonempty (Some id) = true)
    by (destruct id; [congruence | reflexivity]).
  unfold draft, TwitterClient.find_contact_info,
    TwitterClient.get_user_info in He.
  split.
  - intros u name Hu Hname Hnn. rewrite Hu in He. cbn [bind concerns_of] in He.
    destruct (GrokClient.generate_support_message _ _ _) as [m|x];
      [|discriminate].
    cbn [bind] in He. injection He as <-. cbn.
    rewrite Hid, Hn, Hname. cbn.
    destruct name; [congruence|]. cbn. auto.
  - intros Hu.
    assert (Hc : (info <- (match users_api w idx (p_author_id post) with
                           | Response (Some u) => Return (Info u)
                           | Response None => Return EmptyInfo
                           | Failure _ => Return NoInfo
                           end) ;;
                  match info with
                  | NoInfo | EmptyInfo => Return None
                  | Info u =>
                      Return (Some
                        {| c_username := u_username u;
                           c_name := u_name u;
                           c_description := default EmptyString (u_description u);
                           c_location := u_location u;
                           c_url := u_url u;
                           c_profile_url :=
                             if TwitterClient.nonempty (u_username u)
                             then Some ("https://twitter.com/"
                                        ++ Py.str_opt (u_username u))
                             else None |})
                  end) = @Return (option ContactInfo) None).
    { destruct Hu as [-> | [err ->]]; reflexivity. }
    rewrite Hc in He. cbn [bind concerns_of] in He.
    destruct (GrokClient.generate_support_message _ _ _) as [m|x];
      [|discriminate].
    cbn [bind] in He. injection He as <-. cbn.
    rewrite Hid, Hn. auto.
Qed.

Lemma draft_links_witness :
  exists e,
    draft Sample.mixed 1 (Sample.post_of "9" "so tired of it all",
                          JObj Sample.alarm_verdict) = Return e
    /\ r_post_url e = Some "https://twitter.com/sam/status/9".
Proof.
  destruct (draft_links Sample.mixed 1 (Sample.post_of "9" "so tired of it all")
              Sample.alarm_verdict "9" eq_refl eq_refl)
    as (e & He & Hfound & _); [discriminate|].
  exists e. split; [exact He|].
  destruct (Hfound Sample.author "sam" eq_refl eq_refl) as (_ & _ & Hp);
    [discriminate | exact Hp].
Defined.


(** ** The memory files (memory_manager.py, lines 52-97, 131-162) *)

Section MemoryFacts.

Local Open Scope list_scope.

Lemma file_memories_insert_eq (disk : gmap string (list MemoryEntry)) u l :
  Memory.file_memories (<[u := l]> disk) u = l.
Proof. unfold Memory.file_memories. now rewrite lookup_insert_eq. Qed.


Lemma add_memory_fallback self mem0_add writable now
    (disk : gmap string (list MemoryEntry)) user text metadata :
  mem0_available self = false ->
  MemoryOps.add_memory self mem0_add writable now disk user text metadata
  = if writable
    then <[user := Memory.file_memories disk user
                   ++ [{| m_text := text; m_timestamp := now;
                          m_metadata := default [] metadata |}]]> disk
    else disk.
Proof. intros H. unfold MemoryOps.add_memory. now rewrite H. Qed.

End MemoryFacts.



(** X9: without the memory library and with a limit of zero or more, a
    search that follows the adding of a memory returns the first [limit] of
    the earlier matches followed by the new memory, where the new memory
    counts only if its lower-cased text contains the lower-cased query;
    [str.lower] is the library's, whatever it does to a text. *)
Theorem add_memory_then_search (str_lower : string -> string)
    (self : MemoryManager)
    (mem0_add : string -> string -> dict -> bool)
    (now : string) (disk : gmap string (list MemoryEntry))
    (user text query : string) (metadata : option dict) (limit : Z) :
  mem0_available self = false ->
  (0 <= limit)%Z ->
  let entry :=
    {| m_text := text; m_timestamp := now;
       m_metadata := default [] metadata |} in
  let earlier :=
    List.filter
      (fun mem => Str.contains (str_lower query) (str_lower (m_text mem)))
      (default [] (disk !! user)) in
  Memory.search_memories str_lower self
    (MemoryOps.add_memory self mem0_add true now disk user text metadata)
    user query limit
  = firstn (Z.to_nat limit)
      (earlier
       ++ (if Str.contains (str_lower query) (str_lower text)
           then [entry] else []))%list.
Proof.
  intros Hm Hl. cbn zeta. rewrite add_memory_fallback by exact Hm.
  unfold Memory.search_memories. rewrite Hm.
  unfold Memory._search_file_memories. rewrite file_memories_insert_eq.
  unfold Py.slice_to. destruct (Z.leb_spec 0 limit); [|lia].
  rewrite List.filter_app. reflexivity.
Qed.

Lemma add_memory_then_search_witness :
  Memory.search_memories Str.lower Sample.no_mem0
    (MemoryOps.add_memory Sample.no_mem0 (fun _ _ _ => true) true "t9"
       Sample.disk "u1" "User said: SAD again" None)
    "u1" "sad" 5
  = [Sample.entry "User said: I feel SAD today";
     Sample.entry "User said: sadness again";
     {| m_text := "User said: SAD again"; m_timestamp := "t9";
        m_metadata := [] |}].
Proof.
  rewrite (add_memory_then_search Str.lower Sample.no_mem0 (fun _ _ _ => true)
             "t9" Sample.disk "u1" "User said: SAD again" "sad" None 5
             eq_refl);
    [|lia].
  vm_compute. reflexivity.
Defined.

(** ** The conversation history (memory_manager.py, lines 83-129, 164-194) *)

Section HistoryFacts.

Local Open Scope list_scope.

Lemma update_last_snoc {A : Type} (f : A -> A) (l : list A) (x : A) :
  update_last f (l ++ [x]) = l ++ [f x].
Proof.
  induction l as [|y l IH]; [reflexivity|].
  cbn [app update_last]. rewrite IH. now destruct l.
Qed.

Lemma save_message_first (history : gmap string (list Conversation))
    user role content timestamp :
  history !! user = None ->
  MemoryOps._save_message true history user role content timestamp
  = <[user := [ {| conv_started_at := timestamp;
                   conv_messages :=
                     [ {| msg_role := role; msg_content := content;
                          msg_timestamp := timestamp |} ];
                   conv_ended := false |} ]]> history.
Proof. intros H. unfold MemoryOps._save_message. now rewrite H. Qed.

Lemma save_message_open (history : gmap string (list Conversation))
    user role content timestamp earlier current :
  history !! user = Some (earlier ++ [current]) ->
  conv_ended current = false ->
  MemoryOps._save_message true history user role content timestamp
  = <[user := earlier
              ++ [MemoryOps.append_message
                    {| msg_role := role; msg_content := content;
                       msg_timestamp := timestamp |} current]]> history.
Proof.
  intros H He. unfold MemoryOps._save_message. rewrite H.
  cbn [default from_option id]. rewrite last_snoc, He.
  now rewrite update_last_snoc.
Qed.


Lemma save_all_open : forall msgs (history : gmap string (list Conversation))
    user earlier current,
  history !! user = Some (earlier ++ [current]) ->
  conv_ended current = false ->
  save_all history user msgs !! user
  = Some (earlier
          ++ [ {| conv_started_at := conv_started_at current;
                  conv_messages := conv_messages current ++ msgs;
                  conv_ended := false |} ]).
Proof.
  induction msgs as [|m msgs IH]; intros history user earlier current H He.
  - cbn. rewrite H, app_nil_r. destruct current; cbn in *. now subst.
  - unfold save_all. cbn [fold_left].
    rewrite (save_message_open _ _ _ _ _ earlier current H He).
    fold (save_all (<[user := earlier
                               ++ [MemoryOps.append_message
                                     {| msg_role := msg_role m;
                                        msg_content := msg_content m;
                                        msg_timestamp := msg_timestamp m |}
                                     current]]> history) user msgs).
    rewrite (IH _ user earlier
               (MemoryOps.append_message
                  {| msg_role := msg_role m; msg_content := msg_content m;
                     msg_timestamp := msg_timestamp m |} current)).
    + cbn. rewrite <- app_assoc. now destruct m.
    + apply lookup_insert_eq.
    + exact He.
Qed.

End HistoryFacts.

Section ConversationFacts.

Local Open Scope list_scope.




Lemma slice_from_suffix {A : Type} (i : Z) (l : list A) :
  exists older, l = older ++ slice_from i l.
Proof.
  unfold slice_from. destruct (0 <=? i)%Z.
  - exists (firstn (Z.to_nat i) l). now rewrite firstn_skipn.
  - exists (firstn (length l - Z.to_nat (- i)) l). now rewrite firstn_skipn.
Qed.

End ConversationFacts.



(** X11: starting without a history file, messages saved one after the
    other all land in one conversation, in the order of their saving; the
    conversation is stamped with the first message's time and is never
    marked as ended, so a later request for the history (with any limit of
    zero or more) returns this single conversation. *)
Theorem saved_messages_share_one_conversation
    (history : gmap string (list Conversation)) (user : string)
    (m : Message) (msgs : list Message) (limit : Z) :
  history !! user = None ->
  (0 <= limit)%Z ->
  MemoryOps.get_conversation_history (save_all history user (m :: msgs)) user
    limit
  = [ {| conv_started_at := msg_timestamp m;
         conv_messages := m :: msgs;
         conv_ended := false |} ].
Proof.
  intros H Hl. unfold MemoryOps.get_conversation_history.
  assert (E : save_all history user (m :: msgs) !! user
              = Some [ {| conv_started_at := msg_timestamp m;
                          conv_messages := m :: msgs;
                          conv_ended := false |} ]).
  { unfold save_all. cbn [fold_left].
    rewrite (save_message_first _ _ _ _ _ H).
    match goal with
    | |- fold_left ?f msgs ?h !! user = _ =>
        change (fold_left f msgs h) with (save_all h user msgs)
    end.
    rewrite (save_all_open msgs _ user []
               {| conv_started_at := msg_timestamp m;
                  conv_messages :=
                    [ {| msg_role := msg_role m;
                         msg_content := msg_content m;
                         msg_timestamp := msg_timestamp m |} ];
                  conv_ended := false |}).
    - cbn. now destruct m.
    - apply lookup_insert_eq.
    - reflexivity. }
  rewrite E. destruct (Z.eqb_spec limit 0) as [|Hne]; [reflexivity|].
  unfold slice_from. destruct (Z.leb_spec 0 (- limit)); [lia|].
  rewrite Z.opp_involutive. cbn [length].
  replace (1 - Z.to_nat limit)%nat with 0%nat by lia. reflexivity.
Qed.

Lemma saved_messages_share_one_conversation_witness :
  MemoryOps.get_conversation_history
    (save_all ∅ "u7" [Fixture.hello; Fixture.answer]) "u7" 50
  = [ {| conv_started_at := "t1";
         conv_messages := [Fixture.hello; Fixture.answer];
         conv_ended := false |} ].
Proof.
  apply (saved_messages_share_one_conversation ∅ "u7" Fixture.hello
           [Fixture.answer] 50); [reflexivity|lia].
Defined.

(** X12: the conversations that [get_conversation_history] returns are
    always a tail of the stored ones: all of them for the limit 0, the last
    [limit] of them (or all, when there are fewer) for a limit above 0, and
    for a limit below 0 those that are left when the first [-limit] are
    dropped. *)
Theorem conversation_history_window
    (history : gmap string (list Conversation)) (user : string)
    (convs : list Conversation) (limit : Z) :
  history !! user = Some convs ->
  let result := MemoryOps.get_conversation_history history user limit in
  (exists older, convs = (older ++ result)%list)
  /\ length result
     = if (limit =? 0)%Z then length convs
       else if (0 <? limit)%Z then Nat.min (Z.to_nat limit) (length convs)
       else (length convs - Z.to_nat (- limit))%nat.
Proof.
  intros H. cbn zeta. unfold MemoryOps.get_conversation_history. rewrite H.
  destruct (Z.eqb_spec limit 0) as [|Hne].
  - split; [now exists []|reflexivity].
  - split; [apply slice_from_suffix|].
    unfold slice_from.
    destruct (Z.leb_spec 0 (- limit)), (Z.ltb_spec 0 limit);
      rewrite List.length_skipn; lia.
Qed.

Lemma conversation_history_window_witness :
  length (MemoryOps.get_conversation_history Fixture.talks "u1" 2) = 2%nat
  /\ length (MemoryOps.get_conversation_history Fixture.talks "u1" (-1))
     = 2%nat.
Proof.
  split.
  - destruct (conversation_history_window Fixture.talks "u1" _ 2 eq_refl)
      as (_ & ->).
    vm_compute. reflexivity.
  - destruct (conversation_history_window Fixture.talks "u1" _ (-1) eq_refl)
      as (_ & ->).
    vm_compute. reflexivity.
Defined.

(** ** The fallback context (rag_manager.py, lines 148-204) *)

(** X13: without LanceDB the context returned for a request does not depend
    on the query nor on the user: it is always the beginning of the same
    three stock resources, [fallback_resources[:limit]], so it has at most
    three entries, and exactly [min(limit, 3)] for a limit of zero or
    more. *)
Theorem rag_fallback_ignores_query (self : RAGManager)
    (engine : option (string -> Z -> option (list Resource)))
    (user user' query query' : string) (limit : Z) :
  lancedb_available self = false ->
  let result := RAGOps.get_relevant_context self engine user query limit in
  result = RAGOps.get_relevant_context self engine user' query' limit
  /\ (exists rest, RAGOps.fallback_resources = (result ++ rest)%list)
  /\ (length result <= 3)%nat
  /\ ((0 <= limit)%Z -> length result = Nat.min (Z.to_nat limit) 3).
Proof.
  intros H. cbn zeta. unfold RAGOps.get_relevant_context. rewrite H.
  unfold RAGOps._get_fallback_context.
  assert (E : forall q,
             (if existsb (fun word => Str.contains word (Str.lower q))
                   ["sad"; "depressed"; "anxious"; "worried"]
              then Py.slice_to limit RAGOps.fallback_resources
              else Py.slice_to limit RAGOps.fallback_resources)
             = Py.slice_to limit RAGOps.fallback_resources)
    by (intros q; now destruct (existsb _ _)).
  rewrite !E. unfold Py.slice_to.
  refine (conj eq_refl (conj _ (conj _ _))).
  - destruct (0 <=? limit)%Z;
      eexists; symmetry; apply firstn_skipn.
  - destruct (0 <=? limit)%Z; rewrite List.length_firstn;
      change (length RAGOps.fallback_resources) with 3%nat; lia.
  - intros Hl. destruct (Z.leb_spec 0 limit); [|lia].
    now rewrite List.length_firstn.
Qed.

Lemma rag_fallback_ignores_query_witness :
  RAGOps.get_relevant_context Fixture.no_lancedb None "u1" "I feel sad" 2
  = RAGOps.get_relevant_context Fixture.no_lancedb None "u2" "nice weather" 2.
Proof.
  apply (rag_fallback_ignores_query Fixture.no_lancedb None "u1" "u2"
           "I feel sad" "nice weather" 2 eq_refl).
Defined.

(** ** The response tracker (response_tracker.py) *)

Section AssocFacts.

Local Open Scope list_scope.

Context {V : Type}.

Lemma assoc_get_set_eq (k : string) (v : V) : forall d,
  Assoc.get k (Assoc.set k v d) = Some v.
Proof.
  induction d as [|[k' v'] d IH]; cbn.
  - now rewrite String.eqb_refl.
  - destruct (String.eqb k k') eqn:E; cbn; rewrite ?String.eqb_refl, ?E; auto.
Qed.

Lemma assoc_get_set_ne (k k0 : string) (v : V) : k0 <> k -> forall d,
  Assoc.get k0 (Assoc.set k v d) = Assoc.get k0 d.
Proof.
  intros Hne. apply String.eqb_neq in Hne.
  induction d as [|[k' v'] d IH]; cbn.
  - now rewrite Hne.
  - destruct (String.eqb k k') eqn:E; cbn.
    + apply String.eqb_eq in E. subst k'. now rewrite Hne.
    + now rewrite IH.
Qed.

Lemma assoc_get_none (k : string) : forall d : list (string * V),
  Assoc.get k d = None <-> ~ In k (map fst d).
Proof.
  induction d as [|[k' v'] d IH]; cbn.
  - tauto.
  - destruct (String.eqb_spec k k') as [->|Hne].
    + split; [discriminate|]. intros H. exfalso. apply H. now left.
    + rewrite IH. split.
      * intros H [E|Hin]; [now apply Hne|now apply H].
      * intros H Hin. apply H. now right.
Qed.

Lemma assoc_set_keys (k : string) (v : V) : forall d,
  map fst (Assoc.set k v d)
  = match Assoc.get k d with
    | Some _ => map fst d
    | None => map fst d ++ [k]
    end.
Proof.
  induction d as [|[k' v'] d IH]; cbn; [reflexivity|].
  destruct (String.eqb_spec k k') as [->|Hne]; cbn; [reflexivity|].
  rewrite IH. now destruct (Assoc.get k d).
Qed.

Lemma assoc_set_nodup (k : string) (v : V) (d : list (string * V)) :
  List.NoDup (map fst d) -> List.NoDup (map fst (Assoc.set k v d)).
Proof.
  intros H. rewrite assoc_set_keys.
  destruct (Assoc.get k d) eqn:E; [exact H|].
  apply assoc_get_none in E.
  apply List.NoDup_app; [exact H|repeat constructor; intros []|].
  intros x Hx [<-|[]]. now apply E.
Qed.

Lemma assoc_in_get (k : string) (v : V) : forall d,
  List.NoDup (map fst d) -> In (k, v) d -> Assoc.get k d = Some v.
Proof.
  induction d as [|[k' v'] d IH]; cbn; [tauto|].
  intros Hd [E|Hin].
  - injection E as -> ->. now rewrite String.eqb_refl.
  - apply List.NoDup_cons_iff in Hd as [Hk Hd].
    destruct (String.eqb_spec k k') as [->|Hne].
    + exfalso. apply Hk. change k' with (fst (k', v)). now apply in_map.
    + now apply IH.
Qed.

Lemma assoc_get_in (k : string) (v : V) : forall d,
  Assoc.get k d = Some v -> In (k, v) d.
Proof.
  induction d as [|[k' v'] d IH]; cbn; [discriminate|].
  destruct (String.eqb_spec k k') as [->|Hne].
  - intros [= ->]. now left.
  - intros H. right. now apply IH.
Qed.

End AssocFacts.

Section TrackerFacts.

Local Open Scope list_scope.

Import ResponseTracker.

Lemma pending_from_spec clock o : forall offers i,
  In o (pending_from clock i offers)
  <-> exists j k,
        nth_error offers j = Some (k, o)
        /\ o_status o = "pending"
        /\ (clock (i + j)%nat - o_timestamp o < week)%Z.
Proof.
  induction offers as [|[k0 o0] offers IH]; intros i.
  - cbn. split; [tauto|]. intros (j & k & H & _). now destruct j.
  - cbn [pending_from].
    assert (Hrest :
              (exists j k,
                  nth_error offers j = Some (k, o)
                  /\ o_status o = "pending"
                  /\ (clock (S i + j)%nat - o_timestamp o < week)%Z)
              <-> exists j k,
                  nth_error ((k0, o0) :: offers) (S j) = Some (k, o)
                  /\ o_status o = "pending"
                  /\ (clock (i + S j)%nat - o_timestamp o < week)%Z).
    { split; intros (j & k & H1 & H2 & H3); exists j, k;
        (split; [exact H1|split; [exact H2|]]);
        [replace (i + S j)%nat with (S i + j)%nat by lia
        |replace (S i + j)%nat with (i + S j)%nat by lia]; exact H3. }
    destruct (String.eqb_spec (o_status o0) "pending") as [Hs|Hs];
      [destruct (Z.ltb_spec (clock i - o_timestamp o0) week) as [Ht|Ht]|];
      cbn [andb In]; rewrite IH, Hrest.
    + split.
      * intros [<-|(j & k & H)].
        -- exists 0%nat, k0. rewrite Nat.add_0_r. now cbn.
        -- exists (S j), k. exact H.
      * intros ([|j] & k & H1 & H2 & H3).
        -- left. cbn in H1. now injection H1 as _ ->.
        -- right. exists j, k. auto.
    + split.
      * intros (j & k & H). exists (S j), k. exact H.
      * intros ([|j] & k & H1 & H2 & H3).
        -- cbn in H1. injection H1 as _ <-. rewrite Nat.add_0_r in H3. lia.
        -- exists j, k. auto.
    + split.
      * intros (j & k & H). exists (S j), k. exact H.
      * intros ([|j] & k & H1 & H2 & H3).
        -- cbn in H1. injection H1 as _ <-. contradiction.
        -- exists j, k. auto.
Qed.

Lemma pending_from_sublist clock : forall offers i,
  sublist (pending_from clock i offers) (map snd offers).
Proof.
  induction offers as [|[k0 o0] offers IH]; intros i; cbn.
  - constructor.
  - destruct (_ && _); [apply sublist_skip|apply sublist_cons]; apply IH.
Qed.

Lemma no_underscore_cons c s :
  Str.contains "_" (String c s) = false ->
  c <> "_"%char /\ Str.contains "_" s = false.
Proof.
  cbn [Str.contains]. intros H. apply orb_false_iff in H as [H1 H2].
  split; [|exact H2]. intros ->.
  cbn [String.prefix] in H1. destruct (ascii_dec "_" "_"); [|congruence].
  now destruct s.
Qed.

Lemma offer_key_injective : forall u u' t t',
  Str.contains "_" u = false ->
  Str.contains "_" u' = false ->
  offer_key u t = offer_key u' t' ->
  u = u' /\ t = t'.
Proof.
  unfold offer_key.
  induction u as [|c u IH]; intros [|c' u'] t t' H H' E;
    repeat (rewrite app_nil in E || rewrite app_cons in E).
  - now injection E as ->.
  - apply no_underscore_cons in H' as [Hc _].
    injection E as E _. now subst.
  - apply no_underscore_cons in H as [Hc _].
    injection E as E _. now subst.
  - apply no_underscore_cons in H as [_ H].
    apply no_underscore_cons in H' as [_ H'].
    injection E as -> E.
    destruct (IH u' t t' H H' E) as [-> ->]. auto.
Qed.

End TrackerFacts.

(** ** The offers (response_tracker.py, lines 50-61, 188-207) *)

(** X14: an offer recorded for a user and a tweet is stored as pending under
    their key; when the user's response is marked, the same entry becomes
    "responded" and carries the response, the answer and the time, with the
    other fields as recorded.  Neither step touches an entry under another
    key nor the recorded calls; recording keeps the order of the keys (a new
    key goes to the end) and marking leaves the keys as they are. *)
Theorem offer_life_cycle (td : TrackingData) (now now' : Z)
    (user_id username tweet_id reply_id response : string)
    (wants_to_talk : bool) :
  let key := ResponseTracker.offer_key user_id tweet_id in
  let td1 :=
    ResponseTracker.record_offer_sent td now user_id username tweet_id
      reply_id in
  let td2 :=
    ResponseTracker.mark_offer_responded td1 now' user_id tweet_id response
      wants_to_talk in
  Assoc.get key (offers_sent td1)
  = Some {| o_user_id := user_id; o_username := username;
            o_tweet_id := tweet_id; o_reply_id := reply_id;
            o_timestamp := now; o_status := "pending";
            o_response := None; o_wants_to_talk := None;
            o_response_timestamp := None |}
  /\ Assoc.get key (offers_sent td2)
     = Some {| o_user_id := user_id; o_username := username;
               o_tweet_id := tweet_id; o_reply_id := reply_id;
               o_timestamp := now; o_status := "responded";
               o_response := Some response;
               o_wants_to_talk := Some wants_to_talk;
               o_response_timestamp := Some now' |}
  /\ (forall k, k <> key ->
        Assoc.get k (offers_sent td2) = Assoc.get k (offers_sent td))
  /\ map fst (offers_sent td1)
     = match Assoc.get key (offers_sent td) with
       | Some _ => map fst (offers_sent td)
       | None => (map fst (offers_sent td) ++ [key])%list
       end
  /\ map fst (offers_sent td2) = map fst (offers_sent td1)
  /\ calls_initiated td2 = calls_initiated td.
Proof.
  cbn zeta. unfold ResponseTracker.mark_offer_responded.
  unfold ResponseTracker.record_offer_sent. cbn [offers_sent calls_initiated].
  rewrite assoc_get_set_eq. cbn [offers_sent calls_initiated o_user_id
    o_username o_tweet_id o_reply_id o_timestamp].
  refine (conj eq_refl (conj _ (conj _ (conj _ (conj _ eq_refl))))).
  - apply assoc_get_set_eq.
  - intros k Hk. now rewrite !assoc_get_set_ne.
  - apply assoc_set_keys.
  - rewrite (assoc_set_keys _ _ (Assoc.set _ _ _)).
    now rewrite assoc_get_set_eq.
Qed.

(** X15: once a response has been marked for a user and a tweet, the offer
    under their key is no longer among the pending ones, whatever the clock:
    every offer still reported as pending is stored, with status "pending",
    under another key.  (The keys of a dictionary are distinct.) *)
Theorem responded_offer_leaves_pending (td : TrackingData) (now : Z)
    (user_id tweet_id response : string) (wants_to_talk : bool)
    (clock : nat -> Z) (offer : Offer) :
  List.NoDup (map fst (offers_sent td)) ->
  Assoc.get (ResponseTracker.offer_key user_id tweet_id) (offers_sent td)
  <> None ->
  In offer
    (ResponseTracker.get_pending_offers
       (ResponseTracker.mark_offer_responded td now user_id tweet_id response
          wants_to_talk) clock) ->
  exists k,
    k <> ResponseTracker.offer_key user_id tweet_id
    /\ Assoc.get k (offers_sent td) = Some offer
    /\ o_status offer = "pending".
Proof.
  intros Hd Hk. unfold ResponseTracker.get_pending_offers.
  unfold ResponseTracker.mark_offer_responded.
  destruct (Assoc.get (ResponseTracker.offer_key user_id tweet_id)
              (offers_sent td)) as [stored|] eqn:E; [clear Hk|congruence].
  cbn [offers_sent]. intros Hin.
  apply pending_from_spec in Hin as (j & k & Hn & Hs & _).
  apply nth_error_In in Hn.
  apply assoc_in_get in Hn; [|now apply assoc_set_nodup].
  exists k.
  destruct (String.eqb_spec k (ResponseTracker.offer_key user_id tweet_id))
    as [->|Hne].
  - rewrite assoc_get_set_eq in Hn. injection Hn as <-. discriminate Hs.
  - rewrite assoc_get_set_ne in Hn by exact Hne. auto.
Qed.

Lemma responded_offer_leaves_pending_witness :
  ResponseTracker.get_pending_offers
    (ResponseTracker.mark_offer_responded
       (ResponseTracker.record_offer_sent Fixture.empty_tracking 1000 "42"
          "sam" "7" "8")
       2000 "42" "7" "yes please" true)
    (fun _ => 3000%Z)
  = [].
Proof.
  destruct (ResponseTracker.get_pending_offers _ _) as [|offer rest] eqn:E;
    [reflexivity|exfalso].
  destruct (responded_offer_leaves_pending
              (ResponseTracker.record_offer_sent Fixture.empty_tracking 1000
                 "42" "sam" "7" "8")
              2000 "42" "7" "yes please" true (fun _ => 3000%Z) offer)
    as (k & Hk & Hg & _).
  - vm_compute. repeat constructor. intros [].
  - vm_compute. discriminate.
  - rewrite E. now left.
  - cbn in Hg. destruct (String.eqb_spec k "42_7"); [|discriminate].
    now apply Hk.
Defined.

(** X16: the pending offers are picked from the stored offers in their
    order: an offer is reported exactly when some stored entry holds it with
    the status "pending" and a time stamp less than seven days behind the
    clock read for this entry. *)
Theorem pending_offers_spec (td : TrackingData) (clock : nat -> Z) :
  sublist (ResponseTracker.get_pending_offers td clock)
    (map snd (offers_sent td))
  /\ forall offer,
       In offer (ResponseTracker.get_pending_offers td clock)
       <-> exists j k,
             nth_error (offers_sent td) j = Some (k, offer)
             /\ o_status offer = "pending"
             /\ (clock j - o_timestamp offer < ResponseTracker.week)%Z.
Proof.
  unfold ResponseTracker.get_pending_offers. split.
  - apply pending_from_sublist.
  - intros offer. apply pending_from_spec.
Qed.

(** X17: an offer that has just been recorded is reported as pending as long
    as the clock is less than seven days past the recording. *)
Theorem recorded_offer_pending_for_a_week (td : TrackingData) (now : Z)
    (user_id username tweet_id reply_id : string) (clock : nat -> Z) :
  (forall i, (clock i - now < ResponseTracker.week)%Z) ->
  In {| o_user_id := user_id; o_username := username;
        o_tweet_id := tweet_id; o_reply_id := reply_id;
        o_timestamp := now; o_status := "pending";
        o_response := None; o_wants_to_talk := None;
        o_response_timestamp := None |}
    (ResponseTracker.get_pending_offers
       (ResponseTracker.record_offer_sent td now user_id username tweet_id
          reply_id) clock).
Proof.
  intros Hc. unfold ResponseTracker.get_pending_offers.
  apply pending_from_spec.
  unfold ResponseTracker.record_offer_sent. cbn [offers_sent].
  match goal with
  | |- context [Assoc.set ?k ?v ?d] =>
      destruct (In_nth_error (Assoc.set k v d) (k, v)
                  (assoc_get_in k v _ (assoc_get_set_eq k v d))) as [j Hj];
      exists j, k
  end.
  split; [exact Hj|]. split; [reflexivity|]. apply Hc.
Qed.

Lemma recorded_offer_pending_for_a_week_witness :
  In {| o_user_id := "42"; o_username := "sam"; o_tweet_id := "7";
        o_reply_id := "8"; o_timestamp := 1000; o_status := "pending";
        o_response := None; o_wants_to_talk := None;
        o_response_timestamp := None |}
    (ResponseTracker.get_pending_offers
       (ResponseTracker.record_offer_sent Fixture.empty_tracking 1000 "42"
          "sam" "7" "8")
       (fun _ => 86400000000%Z)).
Proof.
  apply (recorded_offer_pending_for_a_week Fixture.empty_tracking 1000 "42"
           "sam" "7" "8" (fun _ => 86400000000%Z)).
  intros _. vm_compute. reflexivity.
Defined.

(** X18: for user ids without an underscore (Twitter ids are digits), two
    different pairs of user and tweet have different keys, so recording an
    offer for one pair leaves the entry of the other pair as it is. *)
Theorem offers_do_not_collide (td : TrackingData) (now : Z)
    (user_id username tweet_id reply_id user_id' tweet_id' : string) :
  Str.contains "_" user_id = false ->
  Str.contains "_" user_id' = false ->
  user_id <> user_id' \/ tweet_id <> tweet_id' ->
  ResponseTracker.offer_key user_id tweet_id
  <> ResponseTracker.offer_key user_id' tweet_id'
  /\ Assoc.get (ResponseTracker.offer_key user_id' tweet_id')
       (offers_sent
          (ResponseTracker.record_offer_sent td now user_id username tweet_id
             reply_id))
     = Assoc.get (ResponseTracker.offer_key user_id' tweet_id')
         (offers_sent td).
Proof.
  intros Hu Hu' Hd.
  assert (Hk : ResponseTracker.offer_key user_id tweet_id
               <> ResponseTracker.offer_key user_id' tweet_id').
  { intros E. destruct (offer_key_injective _ _ _ _ Hu Hu' E).
    destruct Hd; contradiction. }
  split; [exact Hk|].
  unfold ResponseTracker.record_offer_sent. cbn [offers_sent].
  apply assoc_get_set_ne. congruence.
Qed.

Lemma offers_do_not_collide_witness :
  ResponseTracker.offer_key "42" "7" <> ResponseTracker.offer_key "42" "9".
Proof.
  apply (offers_do_not_collide Fixture.empty_tracking 0 "42" "sam" "7" "8"
           "42" "9"); [reflexivity|reflexivity|].
  right. discriminate.
Defined.

(** ** The reading of a response (response_tracker.py, lines 85-121) *)

Section SentimentFacts.

Import ResponseTracker.




End SentimentFacts.




(** ** The call (response_tracker.py, lines 123-186) *)

(** X21: [initiate_call_for_user] never touches the recorded offers.
    Without a phone number (none, or an empty one) it returns nothing and
    records nothing.  When it returns a result, the
    phone number was there, the backend had answered 200 with this result
    as a dictionary, and the call is recorded under the key made of the
    user id and the clock, with the conversation id of the result and the
    status "initiated".  Whenever the recorded calls change, it is by this
    one entry. *)
Theorem initiate_call_outcomes (td : TrackingData)
    (post : CallRequest -> backend) (clock now : Z)
    (user_id username : string) (phone_number : option string)
    (context : option dict) :
  let outcome :=
    ResponseTracker.initiate_call_for_user td post clock now user_id username
      phone_number context in
  let request phone :=
    {| cr_user_id := user_id; cr_username := username;
       cr_phone_number := phone; cr_context := default [] context |} in
  let record phone result :=
    {| call_user_id := user_id; call_username := username;
       call_conversation_id := Py.get result "conversation_id";
       call_phone_number := phone; call_timestamp := now;
       call_status := "initiated" |} in
  let call_key := user_id ++ "_" ++ pretty clock in
  offers_sent (snd outcome) = offers_sent td
  /\ (phone_number = None \/ phone_number = Some EmptyString ->
      outcome = (None, td))
  /\ (forall result,
        fst outcome = Some result ->
        exists phone,
          phone_number = Some phone
          /\ Str.is_empty phone = false
          /\ post (request phone) = Replied 200 (JObj result)
          /\ Assoc.get call_key (calls_initiated (snd outcome))
             = Some (record phone result))
  /\ (calls_initiated (snd outcome) = calls_initiated td
      \/ exists phone result,
           phone_number = Some phone
           /\ post (request phone) = Replied 200 (JObj result)
           /\ calls_initiated (snd outcome)
              = Assoc.set call_key (record phone result)
                  (calls_initiated td)).
Proof.
  cbn zeta. unfold ResponseTracker.initiate_call_for_user.
  assert (Hu : offers_sent (snd (@None dict, td)) = offers_sent td
               /\ (phone_number = None \/ phone_number = Some EmptyString ->
                   (@None dict, td) = (None, td))
               /\ (forall result,
                     fst (@None dict, td) = Some result ->
                     exists phone,
                       phone_number = Some phone
                       /\ Str.is_empty phone = false
                       /\ post {| cr_user_id := user_id;
                                  cr_username := username;
                                  cr_phone_number := phone;
                                  cr_context := default [] context |}
                          = Replied 200 (JObj result)
                       /\ Assoc.get (user_id ++ "_" ++ pretty clock)
                            (calls_initiated (snd (@None dict, td)))
                          = Some {| call_user_id := user_id;
                                    call_username := username;
                                    call_conversation_id :=
                                      Py.get result "conversation_id";
                                    call_phone_number := phone;
                                    call_timestamp := now;
                                    call_status := "initiated" |})
               /\ (calls_initiated (snd (@None dict, td)) = calls_initiated td
                   \/ exists phone result,
                        phone_number = Some phone
                        /\ post {| cr_user_id := user_id;
                                   cr_username := username;
                                   cr_phone_number := phone;
                                   cr_context := default [] context |}
                           = Replied 200 (JObj result)
                        /\ calls_initiated (snd (@None dict, td))
                           = Assoc.set (user_id ++ "_" ++ pretty clock)
                               {| call_user_id := user_id;
                                  call_username := username;
                                  call_conversation_id :=
                                    Py.get result "conversation_id";
                                  call_phone_number := phone;
                                  call_timestamp := now;
                                  call_status := "initiated" |}
                               (calls_initiated td))).
  { refine (conj eq_refl (conj (fun _ => eq_refl) (conj _ (or_introl eq_refl)))).
    intros result H. discriminate H. }
  destruct phone_number as [phone|]; [|exact Hu].
  destruct (Str.is_empty phone) eqn:Ee; [exact Hu|].
  destruct (post _) as [status body|] eqn:Ep; [|exact Hu].
  destruct body as [| | | | |result]; try exact Hu.
  destruct (Z.eqb_spec status 200) as [->|Hs]; [|exact Hu].
  clear Hu.
  assert (Hr : forall o : option dict,
             let td' :=
               {| offers_sent := offers_sent td;
                  calls_initiated :=
                    Assoc.set (user_id ++ "_" ++ pretty clock)
                      {| call_user_id := user_id; call_username := username;
                         call_conversation_id :=
                           Py.get result "conversation_id";
                         call_phone_number := phone; call_timestamp := now;
                         call_status := "initiated" |}
                      (calls_initiated td) |} in
             (o = None \/ o = Some result) ->
             offers_sent (snd (o, td')) = offers_sent td
             /\ (Some phone = None \/ Some phone = Some EmptyString ->
                 (o, td') = (None, td))
             /\ (forall result0,
                   fst (o, td') = Some result0 ->
                   exists phone0,
                     Some phone = Some phone0
                     /\ Str.is_empty phone0 = false
                     /\ post {| cr_user_id := user_id;
                                cr_username := username;
                                cr_phone_number := phone0;
                                cr_context := default [] context |}
                        = Replied 200 (JObj result0)
                     /\ Assoc.get (user_id ++ "_" ++ pretty clock)
                          (calls_initiated (snd (o, td')))
                        = Some {| call_user_id := user_id;
                                  call_username := username;
                                  call_conversation_id :=
                                    Py.get result0 "conversation_id";
                                  call_phone_number := phone0;
                                  call_timestamp := now;
                                  call_status := "initiated" |})
             /\ (calls_initiated (snd (o, td')) = calls_initiated td
                 \/ exists phone0 result0,
                      Some phone = Some phone0
                      /\ post {| cr_user_id := user_id;
                                 cr_username := username;
                                 cr_phone_number := phone0;
                                 cr_context := default [] context |}
                         = Replied 200 (JObj result0)
                      /\ calls_initiated (snd (o, td'))
                         = Assoc.set (user_id ++ "_" ++ pretty clock)
                             {| call_user_id := user_id;
                                call_username := username;
                                call_conversation_id :=
                                  Py.get result0 "conversation_id";
                                call_phone_number := phone0;
                                call_timestamp := now;
                                call_status := "initiated" |}
                             (calls_initiated td))).
  { intros o td' Ho. cbn [fst snd]. subst td'. cbn [offers_sent calls_initiated].
    refine (conj eq_refl (conj _ (conj _ _))).
    - intros [H|H]; [discriminate H|]. injection H as ->. discriminate Ee.
    - intros result0 E. exists phone.
      assert (result0 = result) as -> by (destruct Ho; congruence).
      refine (conj eq_refl (conj Ee (conj Ep _))).
      apply assoc_get_set_eq.
    - right. exists phone, result. auto. }
  destruct (Py.get_default result "initial_message" (JStr EmptyString));
    apply Hr; auto.
Qed.

Lemma initiate_call_outcomes_witness :
  exists phone,
    Some "+15550100" = Some phone
    /\ Assoc.get ("42" ++ "_" ++ pretty 1700000000%Z)
         (calls_initiated
            (snd (ResponseTracker.initiate_call_for_user
                    Fixture.empty_tracking Fixture.backend_ok 1700000000 5
                    "42" "sam" (Some "+15550100") None)))
       = Some {| call_user_id := "42"; call_username := "sam";
                 call_conversation_id := JStr "conv_42";
                 call_phone_number := phone; call_timestamp := 5;
                 call_status := "initiated" |}.
Proof.
  destruct (initiate_call_outcomes Fixture.empty_tracking Fixture.backend_ok
              1700000000 5 "42" "sam" (Some "+15550100") None)
    as (_ & _ & H & _).
  destruct (H [("conversation_id", JStr "conv_42");
               ("initial_message", JStr "Hi Sam")])
    as (phone & Hp & _ & _ & Hg); [vm_compute; reflexivity|].
  exists phone. split; [exact Hp|exact Hg].
Defined.

(** X22: the call is recorded before the initial message is printed: when
    the backend answers 200 with a dictionary whose initial message is
    neither a string nor a list (a null, a number, ...), slicing it raises,
    the function returns nothing, and yet the call stays recorded as
    "initiated". *)
Theorem call_recorded_though_nothing_returned (td : TrackingData)
    (post : CallRequest -> backend) (clock now : Z)
    (user_id username phone : string) (context : option dict)
    (result : dict) :
  Str.is_empty phone = false ->
  post {| cr_user_id := user_id; cr_username := username;
          cr_phone_number := phone; cr_context := default [] context |}
  = Replied 200 (JObj result) ->
  match Py.get_default result "initial_message" (JStr EmptyString) with
  | JStr _ | JArr _ => False
  | _ => True
  end ->
  let outcome :=
    ResponseTracker.initiate_call_for_user td post clock now user_id username
      (Some phone) context in
  fst outcome = None
  /\ Assoc.get (user_id ++ "_" ++ pretty clock)
       (calls_initiated (snd outcome))
     = Some {| call_user_id := user_id; call_username := username;
               call_conversation_id := Py.get result "conversation_id";
               call_phone_number := phone; call_timestamp := now;
               call_status := "initiated" |}.
Proof.
  intros He Hp Hm. cbn zeta. unfold ResponseTracker.initiate_call_for_user.
  rewrite He, Hp. cbn [Z.eqb Pos.eqb].
  destruct (Py.get_default result "initial_message" (JStr EmptyString));
    try contradiction; cbn [fst snd calls_initiated];
    (split; [reflexivity|apply assoc_get_set_eq]).
Qed.

Lemma call_recorded_though_nothing_returned_witness :
  fst (ResponseTracker.initiate_call_for_user Fixture.empty_tracking
         (fun _ => Replied 200 (JObj [("conversation_id", JStr "conv_42");
                                      ("initial_message", JNull)]))
         1700000000 5 "42" "sam" (Some "+15550100") None)
  = None.
Proof.
  apply (call_recorded_though_nothing_returned Fixture.empty_tracking
           (fun _ => Replied 200 (JObj [("conversation_id", JStr "conv_42");
                                        ("initial_message", JNull)]))
           1700000000 5 "42" "sam" "+15550100" None
           [("conversation_id", JStr "conv_42"); ("initial_message", JNull)]);
    [reflexivity|reflexivity|vm_compute; exact I].
Defined.
